(** * asana-go: the [Date] JSON codec and the listing helpers

  A shallow embedding of
  - [Date.MarshalJSON] / [Date.UnmarshalJSON] (package [asana]), and
  - [ListWorkspaces], [ListProjects], [ListTasks], [ListSections]
    (package [util]),
  together with the parts of Go's [time], [encoding/json], [unicode/utf8]
  and [fmt] packages those functions call.

  Go strings and byte slices are sequences of bytes: they are embedded as
  [string], whose characters ([ascii]) are exactly the 256 byte values.
  Go's [int] is embedded as [Z]. *)

From Stdlib Require Import ZArith NArith List String Ascii Bool Lia.
From Stdlib Require Import DecimalString.
From Stdlib Require Decimal DecimalFacts DecimalPos DecimalN.
Import ListNotations.

Local Open Scope string_scope.
Local Open Scope Z_scope.

(* ================================================================== *)
(** ** Bytes and strings *)

Module GoString.

(** Numeric value of a byte and the byte of a numeric value. *)
Definition byteZ (c : ascii) : Z := Z.of_N (N_of_ascii c).
Definition ofZ (n : Z) : ascii := ascii_of_N (Z.to_N n).

(** [len(s)] *)
Definition len (s : string) : Z := Z.of_nat (String.length s).

(** [s[n:]] and [s[:n]] for [n <= len(s)] *)
Fixpoint drop (n : nat) (s : string) : string :=
  match n, s with
  | O, _ => s
  | S n', String _ r => drop n' r
  | S _, EmptyString => EmptyString
  end.

Fixpoint take (n : nat) (s : string) : string :=
  match n, s with
  | O, _ => EmptyString
  | S n', String c r => String c (take n' r)
  | S _, EmptyString => EmptyString
  end.

(** The last byte of a string and the string without it. *)
Fixpoint last (s : string) : option ascii :=
  match s with
  | EmptyString => None
  | String c EmptyString => Some c
  | String _ r => last r
  end.

Fixpoint init (s : string) : string :=
  match s with
  | EmptyString => EmptyString
  | String _ EmptyString => EmptyString
  | String c r => String c (init r)
  end.

(** [n] copies of the byte [c]. *)
Fixpoint replicate (n : nat) (c : ascii) : string :=
  match n with
  | O => EmptyString
  | S n' => String c (replicate n' c)
  end.

(** The byte ['0' + n]. *)
Definition digit (n : Z) : ascii := ofZ (48 + n).

(** The double quote (byte 34) and the backslash (byte 92). *)
Definition dquote : ascii := ofZ 34.
Definition backslash : ascii := ofZ 92.

(** [c1 <= c <= c2] on bytes. *)
Definition between (c1 c c2 : ascii) : bool :=
  (byteZ c1 <=? byteZ c) && (byteZ c <=? byteZ c2).

End GoString.
Import GoString.

(* ================================================================== *)
(** ** Errors

  The Go [error] values that reach the code under study.  The three
  library error types are kept apart; [errorString] stands for the errors
  of the API client. *)

Inductive ParseMessage : Type :=
| msgNone
| msgExtraText
| msgOutOfRange (what : string).

Inductive error : Type :=
| SyntaxError                                   (* *json.SyntaxError *)
| UnmarshalTypeError (value : string)           (* *json.UnmarshalTypeError *)
| ParseError (layout value layoutElem valueElem : string)
           (message : ParseMessage)           (* *time.ParseError *)
| phasePanic                                    (* panic(phasePanicMsg) in json *)
| errorString (s : string).                     (* errors.New(s) *)

(* ================================================================== *)
(** ** Package [time]

  A [time.Time] is embedded by the civil fields its accessors [Date],
  [Clock], [Nanosecond] and [Location] return: these are what [Format]
  reads and what [Parse] builds (through [time.Date]).  A value of the Go
  type always has its fields in range, which is [Time_wf]. *)

Module time.

Inductive Location : Type :=
| UTC
| Local
| FixedZone (name : string) (offset : Z).

Record Time : Type := mkTime {
  Year : Z;
  Month : Z;
  Day : Z;
  Hour : Z;
  Minute : Z;
  Second : Z;
  Nanosecond : Z;
  Loc : Location
}.

Definition February : Z := 2.

(** [daysBefore[m]] counts the days in a non-leap year before month
    [m+1]. *)
Definition daysBefore : list Z :=
  [0; 31; 59; 90; 120; 151; 181; 212; 243; 273; 304; 334; 365].

(** Go's [%] truncates, as [Z.rem]. *)
Definition isLeap (year : Z) : bool :=
  (Z.rem year 4 =? 0) && (negb (Z.rem year 100 =? 0) || (Z.rem year 400 =? 0)).

Definition daysIn (m : Z) (year : Z) : Z :=
  if (m =? February) && isLeap year then 29
  else nth (Z.to_nat m) daysBefore 0 - nth (Z.to_nat (m - 1)) daysBefore 0.

Definition Time_wf (t : Time) : Prop :=
  1 <= Month t <= 12 /\
  1 <= Day t <= daysIn (Month t) (Year t) /\
  0 <= Hour t < 24 /\ 0 <= Minute t < 60 /\ 0 <= Second t < 60 /\
  0 <= Nanosecond t < 1000000000.

(** [time.Date(year, month, day, hour, min, sec, nsec, loc)] on arguments
    that are already in range, where no normalisation takes place.
    [Parse] validates every field before the call. *)
Definition Date (year month day hour min sec nsec : Z) (loc : Location) : Time :=
  mkTime year month day hour min sec nsec loc.

(** The zero [Time]: January 1, year 1, 00:00:00 UTC. *)
Definition zero : Time := mkTime 1 1 1 0 0 0 0 UTC.

(** *** Layout elements

    [nextStdChunk] finds the first reference-time element in a layout.  The
    embedding knows the three elements of the layout the program uses
    ("2006", "01" and "02"); the other elements of Go's layout language do
    not occur in it and are not modelled. *)
Inductive std : Type :=
| stdNone          (* 0: no element found *)
| stdLongYear      (* "2006" *)
| stdZeroMonth     (* "01" *)
| stdZeroDay.      (* "02" *)

Fixpoint nextStdChunk (layout : string) : string * std * string :=
  match layout with
  | EmptyString => (EmptyString, stdNone, EmptyString)
  | String c rest =>
      if prefix "2006" layout then (EmptyString, stdLongYear, drop 4 layout)
      else if prefix "01" layout then (EmptyString, stdZeroMonth, drop 2 layout)
      else if prefix "02" layout then (EmptyString, stdZeroDay, drop 2 layout)
      else let '(p, s, suffix) := nextStdChunk rest in (String c p, s, suffix)
  end.

(** *** Formatting *)

(** The decimal digits of [u >= 0], without padding. *)
Definition decimal (u : Z) : string :=
  NilZero.string_of_uint (N.to_uint (Z.to_N u)).

(** [appendInt(b, x, width)]: the bytes appended to [b].  A minus sign for a
    negative [x], then the decimal form of [|x|] zero-padded to [width]
    digits; the two fast paths of the source are kept. *)
Definition appendInt (x : Z) (width : Z) : string :=
  let sign := if x <? 0 then "-" else EmptyString in
  let u := Z.abs x in
  if (width =? 2) && (u <? 100) then
    sign ++ String (digit (u / 10)) (String (digit (u mod 10)) EmptyString)
  else if (width =? 4) && (u <? 10000) then
    sign ++ String (digit ((u / 100) / 10)) (String (digit ((u / 100) mod 10))
            (String (digit ((u mod 100) / 10)) (String (digit ((u mod 100) mod 10)) EmptyString)))
  else
    let n := len (decimal u) in
    sign ++ replicate (Z.to_nat (width - n)) "0"%char ++ decimal u.

(** The loop of [Time.AppendFormat].  [None] means that [fuel] ran out; every
    round with an element consumes at least two bytes of the layout, so
    [length layout] rounds plus one are enough ([appendFormat_fuel]). *)
Fixpoint appendFormat (fuel : nat) (t : Time) (layout : string) : option string :=
  match fuel with
  | O => None
  | S fuel' =>
      match layout with
      | EmptyString => Some EmptyString
      | _ =>
          let '(pre, s, suffix) := nextStdChunk layout in
          let continue (b : string) :=
            match appendFormat fuel' t suffix with
            | Some r => Some (pre ++ b ++ r)
            | None => None
            end in
          match s with
          | stdNone => Some pre
          | stdLongYear => continue (appendInt (Year t) 4)
          | stdZeroMonth => continue (appendInt (Month t) 2)
          | stdZeroDay => continue (appendInt (Day t) 2)
          end
      end
  end.

(** [t.Format(layout)].  The year, month and day written are those of [t] in
    its own location. *)
Definition Format (t : Time) (layout : string) : string :=
  match appendFormat (S (String.length layout)) t layout with
  | Some b => b
  | None => EmptyString
  end.

(** *** Parsing *)

(** [isDigit(s, i)] *)
Definition isDigit (s : string) (i : nat) : bool :=
  match String.get i s with
  | None => false
  | Some c => between "0" c "9"
  end.

(** [getnum(s, fixed)] parses [s[0:1]] or [s[0:2]] (fixed forces the
    latter) as a decimal integer and returns it with the rest of the
    string; [None] is [errBad]. *)
Definition getnum (s : string) (fixed : bool) : option (Z * string) :=
  if negb (isDigit s 0) then None
  else if negb (isDigit s 1) then
    if fixed then None
    else match s with
         | String c0 r => Some (byteZ c0 - 48, r)
         | EmptyString => None
         end
  else match s with
       | String c0 (String c1 r) => Some ((byteZ c0 - 48) * 10 + (byteZ c1 - 48), r)
       | _ => None
       end.

(** [leadingInt(s)] consumes the leading [[0-9]*] of [s]; [None] is
    [errLeadingInt] (overflow of the 64-bit accumulator). *)
Fixpoint leadingInt (x : Z) (s : string) : option (Z * string) :=
  match s with
  | EmptyString => Some (x, s)
  | String c r =>
      if (byteZ c <? 48) || (57 <? byteZ c) then Some (x, s)
      else if 2 ^ 63 / 10 <? x then None
      else let x' := x * 10 + byteZ c - 48 in
           if 2 ^ 63 <? x' then None else leadingInt x' r
  end.

(** [atoi(s)]; [None] is [errAtoi].  The conversion [int(q)] of the unsigned
    result wraps at [2^63]. *)
Definition atoi (s : string) : option Z :=
  let '(neg, s1) :=
    match s with
    | String c r => if (c =? "-")%char || (c =? "+")%char
                    then ((c =? "-")%char, r) else (false, s)
    | EmptyString => (false, s)
    end in
  match leadingInt 0 s1 with
  | Some (q, EmptyString) =>
      let x := if q =? 2 ^ 63 then - 2 ^ 63 else q in
      Some (if neg then - x else x)
  | _ => None
  end.

(** [cutspace(s)] *)
Fixpoint cutspace (s : string) : string :=
  match s with
  | String c r => if (c =? " ")%char then cutspace r else s
  | EmptyString => s
  end.

(** [skip(value, prefix)] removes [prefix] from the front of [value]; a run
    of spaces in [prefix] matches a possibly empty run of spaces in
    [value].  The result is the value left over and whether [errBad] was
    raised.  [spaces] records that the run of spaces the loop is in has
    been handled ([prefix = cutspace(prefix)]). *)
Fixpoint skip_from (spaces : bool) (value prefix : string) : string * bool :=
  match prefix with
  | EmptyString => (value, true)
  | String p0 prefix' =>
      if (p0 =? " ")%char then
        if spaces then skip_from true value prefix'
        else
          match value with
          | String v0 _ =>
              if negb (v0 =? " ")%char then (value, false)
              else skip_from true (cutspace value) prefix'
          | EmptyString => skip_from true (cutspace value) prefix'
          end
      else
        match value with
        | EmptyString => (value, false)
        | String v0 value' =>
            if negb (v0 =? p0)%char then (value, false)
            else skip_from false value' prefix'
        end
  end.

Definition skip (value prefix : string) : string * bool :=
  skip_from false value prefix.

(** The fields [parse] collects while it walks the layout. *)
Record fields : Type := mkFields {
  f_year : Z;
  f_month : Z;
  f_day : Z;
  f_value : string      (* what is left of the value *)
}.

(** The [for] loop of [parse].  [None] means that [fuel] ran out
    ([parse_loop_fuel]: it does not with [S (length layout)]); [Some (inr e)]
    is the [ParseError] the loop returns. *)
Fixpoint parse_loop (fuel : nat) (alayout avalue layout : string) (st : fields)
  : option (fields + error) :=
  match fuel with
  | O => None
  | S fuel' =>
      let '(pre, s, suffix) := nextStdChunk layout in
      let stdstr :=
        take (String.length layout - String.length pre - String.length suffix)
             (drop (String.length pre) layout) in
      let '(value, ok) := skip (f_value st) pre in
      if negb ok then Some (inr (ParseError alayout avalue pre value msgNone))
      else
        match s with
        | stdNone =>
            if negb (len value =? 0)
            then Some (inr (ParseError alayout avalue EmptyString value msgExtraText))
            else Some (inl (mkFields (f_year st) (f_month st) (f_day st) value))
        | stdLongYear =>
            if (len value <? 4) || negb (isDigit value 0)
            then Some (inr (ParseError alayout avalue stdstr value msgNone))
            else
              match atoi (take 4 value) with
              | None => Some (inr (ParseError alayout avalue stdstr value msgNone))
              | Some year =>
                  parse_loop fuel' alayout avalue suffix
                    (mkFields year (f_month st) (f_day st) (drop 4 value))
              end
        | stdZeroMonth =>
            match getnum value true with
            | None => Some (inr (ParseError alayout avalue stdstr value msgNone))
            | Some (month, value') =>
                if (month <=? 0) || (12 <? month)
                then Some (inr (ParseError alayout avalue stdstr value'
                                  (msgOutOfRange "month")))
                else parse_loop fuel' alayout avalue suffix
                       (mkFields (f_year st) month (f_day st) value')
            end
        | stdZeroDay =>
            (* any two-digit day is taken here; it is validated after the
               loop *)
            match getnum value true with
            | None => Some (inr (ParseError alayout avalue stdstr value msgNone))
            | Some (day, value') =>
                parse_loop fuel' alayout avalue suffix
                  (mkFields (f_year st) (f_month st) day value')
            end
        end
  end.

Definition January : Z := 1.

(** [time.Parse(layout, value)].  Month and day start at -1 and default to
    January and 1 when the layout has no element for them; without zone
    information the result is in UTC.  The loop does not run out of fuel
    ([parse_loop_fuel]), so the first case is never taken. *)
Definition Parse (layout value : string) : Time * option error :=
  match parse_loop (S (String.length layout)) layout value layout
          (mkFields 0 (-1) (-1) value) with
  | None => (zero, None)
  | Some (inr e) => (zero, Some e)
  | Some (inl st) =>
      let month := if f_month st <? 0 then January else f_month st in
      let day := if f_day st <? 0 then 1 else f_day st in
      if (day <? 1) || (daysIn month (f_year st) <? day)
      then (zero, Some (ParseError layout value EmptyString (f_value st) (msgOutOfRange "day")))
      else (Date (f_year st) month day 0 0 0 0 UTC, None)
  end.

End time.

(* ================================================================== *)
(** ** Package [unicode/utf8] and [unicode/utf16] *)

Module utf8.

Definition RuneError : Z := 65533.     (* U+FFFD *)
Definition RuneSelf : Z := 128.
Definition MaxRune : Z := 1114111.     (* U+10FFFF *)

(** A continuation byte within [lo, hi]. *)
Definition cont (lo hi : Z) (c : ascii) : bool :=
  (lo <=? byteZ c) && (byteZ c <=? hi).

(** [utf8.DecodeRune(p)]: the first rune of [p] and its width in bytes;
    [(RuneError, 0)] for an empty [p] and [(RuneError, 1)] for an invalid
    encoding.  The accepted ranges of the second byte are those of the
    [acceptRanges] table. *)
Definition DecodeRune (p : string) : Z * nat :=
  match p with
  | EmptyString => (RuneError, 0%nat)
  | String c0 r0 =>
      let b0 := byteZ c0 in
      if b0 <? RuneSelf then (b0, 1%nat)
      else if (194 <=? b0) && (b0 <=? 223) then
        match r0 with
        | String c1 _ =>
            if cont 128 191 c1
            then (Z.lor (Z.shiftl (Z.land b0 31) 6) (Z.land (byteZ c1) 63), 2%nat)
            else (RuneError, 1%nat)
        | _ => (RuneError, 1%nat)
        end
      else if (224 <=? b0) && (b0 <=? 239) then
        let lo := if b0 =? 224 then 160 else 128 in
        let hi := if b0 =? 237 then 159 else 191 in
        match r0 with
        | String c1 (String c2 _) =>
            if cont lo hi c1 && cont 128 191 c2
            then (Z.lor (Z.lor (Z.shiftl (Z.land b0 15) 12)
                               (Z.shiftl (Z.land (byteZ c1) 63) 6))
                        (Z.land (byteZ c2) 63), 3%nat)
            else (RuneError, 1%nat)
        | _ => (RuneError, 1%nat)
        end
      else if (240 <=? b0) && (b0 <=? 244) then
        let lo := if b0 =? 240 then 144 else 128 in
        let hi := if b0 =? 244 then 143 else 191 in
        match r0 with
        | String c1 (String c2 (String c3 _)) =>
            if cont lo hi c1 && cont 128 191 c2 && cont 128 191 c3
            then (Z.lor (Z.lor (Z.lor (Z.shiftl (Z.land b0 7) 18)
                                      (Z.shiftl (Z.land (byteZ c1) 63) 12))
                               (Z.shiftl (Z.land (byteZ c2) 63) 6))
                        (Z.land (byteZ c3) 63), 4%nat)
            else (RuneError, 1%nat)
        | _ => (RuneError, 1%nat)
        end
      else (RuneError, 1%nat)
  end.

Definition enc3 (r : Z) : string :=
  String (ofZ (Z.lor 224 (Z.shiftr r 12)))
    (String (ofZ (Z.lor 128 (Z.land (Z.shiftr r 6) 63)))
       (String (ofZ (Z.lor 128 (Z.land r 63))) EmptyString)).

(** [utf8.EncodeRune(p, r)]: the bytes written.  Surrogates and runes out of
    range are written as [RuneError]. *)
Definition EncodeRune (r : Z) : string :=
  if (0 <=? r) && (r <=? 127) then String (ofZ r) EmptyString
  else if (0 <=? r) && (r <=? 2047) then
    String (ofZ (Z.lor 192 (Z.shiftr r 6)))
      (String (ofZ (Z.lor 128 (Z.land r 63))) EmptyString)
  else if (r <? 0) || (MaxRune <? r) || ((55296 <=? r) && (r <=? 57343)) then
    enc3 RuneError
  else if r <=? 65535 then enc3 r
  else
    String (ofZ (Z.lor 240 (Z.shiftr r 18)))
      (String (ofZ (Z.lor 128 (Z.land (Z.shiftr r 12) 63)))
         (String (ofZ (Z.lor 128 (Z.land (Z.shiftr r 6) 63)))
            (String (ofZ (Z.lor 128 (Z.land r 63))) EmptyString))).

End utf8.

Module utf16.

(** [utf16.IsSurrogate(r)] *)
Definition IsSurrogate (r : Z) : bool := (55296 <=? r) && (r <? 57344).

(** [utf16.DecodeRune(r1, r2)] *)
Definition DecodeRune (r1 r2 : Z) : Z :=
  if (55296 <=? r1) && (r1 <? 56320) && (56320 <=? r2) && (r2 <? 57344)
  then Z.lor (Z.shiftl (r1 - 55296) 10) (r2 - 56320) + 65536
  else utf8.RuneError.

End utf16.

(* ================================================================== *)
(** ** Package [encoding/json]

    [Marshal] for a Go string and [Unmarshal] into a [*string], the two
    uses the program makes of the package. *)

Module json.

(** *** Encoding a string *)

Definition hex : string := "0123456789abcdef".

Definition hexDigit (n : Z) : ascii :=
  match String.get (Z.to_nat n) hex with
  | Some c => c
  | None => "0"%char
  end.

(** [htmlSafeSet[b]]: the ASCII bytes written as they are: all from space
    to DEL except the double quote, the backslash and the three HTML
    characters. *)
Definition htmlSafeSet (b : ascii) : bool :=
  (32 <=? byteZ b) && (byteZ b <? 128) &&
  negb ((b =? dquote)%char || (b =? backslash)%char ||
        (b =? "<")%char || (b =? ">")%char || (b =? "&")%char).

(** The escape written for an ASCII byte outside [htmlSafeSet]. *)
Definition escapeByte (b : ascii) : string :=
  if (b =? backslash)%char || (b =? dquote)%char then String backslash (String b EmptyString)
  else if byteZ b =? 8 then "\b"
  else if byteZ b =? 12 then "\f"
  else if byteZ b =? 10 then "\n"
  else if byteZ b =? 13 then "\r"
  else if byteZ b =? 9 then "\t"
  else "\u00" ++ String (hexDigit (Z.shiftr (byteZ b) 4))
                   (String (hexDigit (Z.land (byteZ b) 15)) EmptyString).

(** The loop of [appendString(dst, src, escapeHTML = true)] over the bytes of
    [src].  The index advances by the width of the rune decoded at it:
    [pending] counts the bytes of that rune still to be passed, and [copy]
    tells whether they are copied to the output (a rune written as it is)
    or were replaced by an escape. *)
Fixpoint appendString_loop (pending : nat) (copy : bool) (src : string) : string :=
  match src with
  | EmptyString => EmptyString
  | String b rest =>
      match pending with
      | S pending' =>
          if copy then String b (appendString_loop pending' copy rest)
          else appendString_loop pending' copy rest
      | O =>
          if byteZ b <? utf8.RuneSelf then
            if htmlSafeSet b then String b (appendString_loop 0 true rest)
            else escapeByte b ++ appendString_loop 0 true rest
          else
            let '(c, size) := utf8.DecodeRune (take 4 src) in
            if (c =? utf8.RuneError) && (size =? 1)%nat then
              "\ufffd" ++ appendString_loop 0 true rest
            else if (c =? 8232) || (c =? 8233) then
              (* U+2028 and U+2029 *)
              "\u202" ++ String (hexDigit (Z.land c 15))
                           (appendString_loop (size - 1) false rest)
            else String b (appendString_loop (size - 1) true rest)
      end
  end.

(** [appendString]: the quoted and escaped form of [src]. *)
Definition appendString (src : string) : string :=
  String dquote (appendString_loop 0 true src ++ String dquote EmptyString).

(** [json.Marshal(v)] for a [v] of type [string].  Encoding a string cannot
    fail: the error is [nil]. *)
Definition Marshal (v : string) : string * option error :=
  (appendString v, None).

(** *** The scanner

    [scanner.step] is a function pointer in Go; here it is the name
    of the state function, and [scan_step] dispatches on it.  A state
    function returns the scanner after the byte, or [None] for [scanError].
    [parseStack] is [scanner.parseState], innermost state first. *)

Inductive parseState : Type := parseObjectKey | parseObjectValue | parseArrayValue.

Inductive stepFn : Type :=
| StateBeginValueOrEmpty | StateBeginValue | StateBeginStringOrEmpty
| StateBeginString | StateEndValue | StateEndTop
| StateInString | StateInStringEsc
| StateInStringEscU | StateInStringEscU1 | StateInStringEscU12 | StateInStringEscU123
| StateNeg | State1 | State0 | StateDot | StateDot0 | StateE | StateESign | StateE0
| StateT | StateTr | StateTru
| StateF | StateFa | StateFal | StateFals
| StateN | StateNu | StateNul.

Record scanner : Type := mkScanner {
  step : stepFn;
  endTop : bool;
  parseStack : list parseState
}.

Definition maxNestingDepth : Z := 10000.

Definition setStep (s : scanner) (f : stepFn) : scanner :=
  mkScanner f (endTop s) (parseStack s).

Definition isSpace (c : ascii) : bool :=
  (byteZ c =? 32) || (byteZ c =? 9) || (byteZ c =? 13) || (byteZ c =? 10).

Definition isDigit19 (c : ascii) : bool := between "1" c "9".
Definition isDigit09 (c : ascii) : bool := between "0" c "9".
Definition isHex (c : ascii) : bool :=
  between "0" c "9" || between "a" c "f" || between "A" c "F".

(** [pushParseState]: enter an object or array, within the nesting limit. *)
Definition pushParseState (s : scanner) (newParseState : parseState) (f : stepFn)
  : option scanner :=
  let stack := newParseState :: parseStack s in
  if Z.of_nat (List.length stack) <=? maxNestingDepth
  then Some (mkScanner f (endTop s) stack)
  else None.

(** [popParseState]: leave an object or array. *)
Definition popParseState (s : scanner) : scanner :=
  match List.tl (parseStack s) with
  | [] => mkScanner StateEndTop true []
  | stack => mkScanner StateEndValue (endTop s) stack
  end.

(** [stateEndTop]: only space may follow the top-level value.  (The source
    records the error in the scanner, and [checkValid] meets it at the next
    byte or in [eof].) *)
Definition stateEndTop (s : scanner) (c : ascii) : option scanner :=
  if isSpace c then Some s else None.

Definition stateEndValue (s : scanner) (c : ascii) : option scanner :=
  match parseStack s with
  | [] => stateEndTop (mkScanner StateEndTop true []) c
  | ps :: stack =>
      if isSpace c then Some (setStep s StateEndValue)
      else
        match ps with
        | parseObjectKey =>
            if (c =? ":")%char
            then Some (mkScanner StateBeginValue (endTop s) (parseObjectValue :: stack))
            else None
        | parseObjectValue =>
            if (c =? ",")%char
            then Some (mkScanner StateBeginString (endTop s) (parseObjectKey :: stack))
            else if (c =? "}")%char then Some (popParseState s)
            else None
        | parseArrayValue =>
            if (c =? ",")%char then Some (setStep s StateBeginValue)
            else if (c =? "]")%char then Some (popParseState s)
            else None
        end
  end.

Definition stateBeginValue (s : scanner) (c : ascii) : option scanner :=
  if isSpace c then Some s
  else if (c =? "{")%char then pushParseState s parseObjectKey StateBeginStringOrEmpty
  else if (c =? "[")%char then pushParseState s parseArrayValue StateBeginValueOrEmpty
  else if (c =? dquote)%char then Some (setStep s StateInString)
  else if (c =? "-")%char then Some (setStep s StateNeg)
  else if (c =? "0")%char then Some (setStep s State0)
  else if (c =? "t")%char then Some (setStep s StateT)
  else if (c =? "f")%char then Some (setStep s StateF)
  else if (c =? "n")%char then Some (setStep s StateN)
  else if isDigit19 c then Some (setStep s State1)
  else None.

Definition stateBeginValueOrEmpty (s : scanner) (c : ascii) : option scanner :=
  if isSpace c then Some s
  else if (c =? "]")%char then stateEndValue s c
  else stateBeginValue s c.

Definition stateBeginString (s : scanner) (c : ascii) : option scanner :=
  if isSpace c then Some s
  else if (c =? dquote)%char then Some (setStep s StateInString)
  else None.

Definition stateBeginStringOrEmpty (s : scanner) (c : ascii) : option scanner :=
  if isSpace c then Some s
  else if (c =? "}")%char then
    stateEndValue (mkScanner (step s) (endTop s)
                     (parseObjectValue :: List.tl (parseStack s))) c
  else stateBeginString s c.

Definition stateInString (s : scanner) (c : ascii) : option scanner :=
  if (c =? dquote)%char then Some (setStep s StateEndValue)
  else if (c =? backslash)%char then Some (setStep s StateInStringEsc)
  else if byteZ c <? 32 then None
  else Some s.

Definition stateInStringEsc (s : scanner) (c : ascii) : option scanner :=
  if (c =? "b")%char || (c =? "f")%char || (c =? "n")%char || (c =? "r")%char ||
     (c =? "t")%char || (c =? backslash)%char || (c =? "/")%char || (c =? dquote)%char
  then Some (setStep s StateInString)
  else if (c =? "u")%char then Some (setStep s StateInStringEscU)
  else None.

Definition stateHex (next : stepFn) (s : scanner) (c : ascii) : option scanner :=
  if isHex c then Some (setStep s next) else None.

Definition stateNeg (s : scanner) (c : ascii) : option scanner :=
  if (c =? "0")%char then Some (setStep s State0)
  else if isDigit19 c then Some (setStep s State1)
  else None.

Definition stateE0 (s : scanner) (c : ascii) : option scanner :=
  if isDigit09 c then Some s else stateEndValue s c.

Definition stateESign (s : scanner) (c : ascii) : option scanner :=
  if isDigit09 c then Some (setStep s StateE0) else None.

Definition stateE (s : scanner) (c : ascii) : option scanner :=
  if (c =? "+")%char || (c =? "-")%char then Some (setStep s StateESign)
  else stateESign s c.

Definition stateDot0 (s : scanner) (c : ascii) : option scanner :=
  if isDigit09 c then Some s
  else if (c =? "e")%char || (c =? "E")%char then Some (setStep s StateE)
  else stateEndValue s c.

Definition stateDot (s : scanner) (c : ascii) : option scanner :=
  if isDigit09 c then Some (setStep s StateDot0) else None.

Definition state0 (s : scanner) (c : ascii) : option scanner :=
  if (c =? ".")%char then Some (setStep s StateDot)
  else if (c =? "e")%char || (c =? "E")%char then Some (setStep s StateE)
  else stateEndValue s c.

Definition state1 (s : scanner) (c : ascii) : option scanner :=
  if isDigit09 c then Some (setStep s State1) else state0 s c.

(** The states inside the literals [true], [false] and [null]. *)
Definition stateLetter (expected : ascii) (next : stepFn) (s : scanner) (c : ascii)
  : option scanner :=
  if (c =? expected)%char then Some (setStep s next) else None.

(** [s.step(s, c)] *)
Definition scan_step (s : scanner) (c : ascii) : option scanner :=
  match step s with
  | StateBeginValueOrEmpty => stateBeginValueOrEmpty s c
  | StateBeginValue => stateBeginValue s c
  | StateBeginStringOrEmpty => stateBeginStringOrEmpty s c
  | StateBeginString => stateBeginString s c
  | StateEndValue => stateEndValue s c
  | StateEndTop => stateEndTop s c
  | StateInString => stateInString s c
  | StateInStringEsc => stateInStringEsc s c
  | StateInStringEscU => stateHex StateInStringEscU1 s c
  | StateInStringEscU1 => stateHex StateInStringEscU12 s c
  | StateInStringEscU12 => stateHex StateInStringEscU123 s c
  | StateInStringEscU123 => stateHex StateInString s c
  | StateNeg => stateNeg s c
  | State1 => state1 s c
  | State0 => state0 s c
  | StateDot => stateDot s c
  | StateDot0 => stateDot0 s c
  | StateE => stateE s c
  | StateESign => stateESign s c
  | StateE0 => stateE0 s c
  | StateT => stateLetter "r" StateTr s c
  | StateTr => stateLetter "u" StateTru s c
  | StateTru => stateLetter "e" StateEndValue s c
  | StateF => stateLetter "a" StateFa s c
  | StateFa => stateLetter "l" StateFal s c
  | StateFal => stateLetter "s" StateFals s c
  | StateFals => stateLetter "e" StateEndValue s c
  | StateN => stateLetter "u" StateNu s c
  | StateNu => stateLetter "l" StateNul s c
  | StateNul => stateLetter "l" StateEndValue s c
  end.

(** [scanner.reset] *)
Definition reset : scanner := mkScanner StateBeginValue false [].

(** [scanner.eof]: the input is complete if the top-level value has ended,
    possibly after one more space. *)
Definition eof (s : scanner) : bool :=
  if endTop s then true
  else match scan_step s " " with
       | Some s' => endTop s'
       | None => false
       end.

(** The loop of [checkValid] from scanner state [s]. *)
Fixpoint scan (s : scanner) (data : string) : option scanner :=
  match data with
  | EmptyString => Some s
  | String c rest =>
      match scan_step s c with
      | Some s' => scan s' rest
      | None => None
      end
  end.

(** [checkValid(data, scan)]: [true] when [data] is one JSON value. *)
Definition checkValid (data : string) : bool :=
  match scan reset data with
  | Some s => eof s
  | None => false
  end.

(** *** Decoding into a string *)

(** The bytes of a string literal, from the byte after the opening quote
    through the closing quote: the scan of [rescanLiteral]. *)
Fixpoint rescanString (data : string) : string :=
  match data with
  | EmptyString => EmptyString
  | String c rest =>
      if (c =? backslash)%char then
        match rest with
        | String e rest' => String c (String e (rescanString rest'))
        | EmptyString => String c EmptyString
        end
      else if (c =? dquote)%char then String c EmptyString
      else String c (rescanString rest)
  end.

Definition hexValue (c : ascii) : Z :=
  if between "0" c "9" then byteZ c - 48
  else if between "a" c "f" then byteZ c - 97 + 10
  else if between "A" c "F" then byteZ c - 65 + 10
  else -1.

(** [getu4(s)] decodes the escape [\uXXXX] at the beginning of [s]; -1 if
    there is none. *)
Definition getu4 (s : string) : Z :=
  match s with
  | String c0 (String c1 (String h0 (String h1 (String h2 (String h3 _))))) =>
      if negb (c0 =? backslash)%char || negb (c1 =? "u")%char then -1
      else if (hexValue h0 <? 0) || (hexValue h1 <? 0) ||
              (hexValue h2 <? 0) || (hexValue h3 <? 0) then -1
      else ((hexValue h0 * 16 + hexValue h1) * 16 + hexValue h2) * 16 + hexValue h3
  | _ => -1
  end.

(** The loop of [unquoteBytes] over the bytes between the quotes; [None] is
    [ok = false].  The index advances past a whole escape or rune at a
    time: [pending] counts the bytes still to be passed. *)
Fixpoint unquote_loop (pending : nat) (s : string) : option string :=
  match s with
  | EmptyString => Some EmptyString
  | String c rest =>
      let emit (b : string) (n : nat) :=
        match unquote_loop n rest with
        | Some r => Some (b ++ r)
        | None => None
        end in
      match pending with
      | S pending' => unquote_loop pending' rest
      | O =>
          if (c =? backslash)%char then
            match rest with
            | EmptyString => None
            | String e _ =>
                if (e =? dquote)%char || (e =? backslash)%char ||
                   (e =? "/")%char || (e =? "'")%char
                then emit (String e EmptyString) 1%nat
                else if (e =? "b")%char then emit (String (ofZ 8) EmptyString) 1%nat
                else if (e =? "f")%char then emit (String (ofZ 12) EmptyString) 1%nat
                else if (e =? "n")%char then emit (String (ofZ 10) EmptyString) 1%nat
                else if (e =? "r")%char then emit (String (ofZ 13) EmptyString) 1%nat
                else if (e =? "t")%char then emit (String (ofZ 9) EmptyString) 1%nat
                else if (e =? "u")%char then
                  let rr := getu4 s in
                  if rr <? 0 then None
                  else if utf16.IsSurrogate rr then
                    let dec := utf16.DecodeRune rr (getu4 (drop 6 s)) in
                    if negb (dec =? utf8.RuneError)
                    then emit (utf8.EncodeRune dec) 11%nat
                    else emit (utf8.EncodeRune utf8.RuneError) 5%nat
                  else emit (utf8.EncodeRune rr) 5%nat
                else None
            end
          else if (c =? dquote)%char || (byteZ c <? 32) then None
          else if byteZ c <? utf8.RuneSelf then emit (String c EmptyString) 0%nat
          else
            let '(rr, size) := utf8.DecodeRune s in
            emit (utf8.EncodeRune rr) (size - 1)%nat
      end
  end.

(** [unquoteBytes(s)] for a quoted literal [s]. *)
Definition unquoteBytes (s : string) : option string :=
  match s with
  | String q body =>
      match last body with
      | Some q' =>
          if (q =? dquote)%char && (q' =? dquote)%char
          then unquote_loop 0 (init body)
          else None
      | None => None
      end
  | EmptyString => None
  end.

Fixpoint skipSpace (data : string) : string :=
  match data with
  | String c rest => if isSpace c then skipSpace rest else data
  | EmptyString => data
  end.

(** [json.Unmarshal(data, &v)] for a [v] of type [string]: the value of
    [v] afterwards and the error.

    The input is checked first.  Then the decoder looks at the first byte
    of the value: an object, an array, a boolean or a number cannot be
    stored into a string ([UnmarshalTypeError]; [v] is left alone); [null]
    leaves [v] unchanged without an error; a string literal is unquoted
    into [v].  [phasePanic] stands for the panic of [literalStore] on a
    literal that does not unquote, which a checked input does not
    cause. *)
Definition Unmarshal (data : string) (v : string) : string * option error :=
  if negb (checkValid data) then (v, Some SyntaxError)
  else
    match skipSpace data with
    | EmptyString => (v, Some SyntaxError)
    | String c rest =>
        if (c =? "{")%char then (v, Some (UnmarshalTypeError "object"))
        else if (c =? "[")%char then (v, Some (UnmarshalTypeError "array"))
        else if (c =? "n")%char then (v, None)
        else if (c =? "t")%char || (c =? "f")%char
        then (v, Some (UnmarshalTypeError "bool"))
        else if (c =? dquote)%char then
          match unquoteBytes (String c (rescanString rest)) with
          | Some s => (s, None)
          | None => (v, Some phasePanic)
          end
        else (v, Some (UnmarshalTypeError "number"))
    end.

End json.

(* ================================================================== *)
(** ** Package [asana]: the [Date] type *)

Module asana.

(** [type Date time.Time] *)
Definition Date : Type := time.Time.

(** Jan 2 15:04:05 2006 MST *)
Definition dateLayout : string := "2006-01-02".

(** [func (d *Date) MarshalJSON() ([]byte, error)] *)
Definition MarshalJSON (d : Date) : string * option error :=
  let s := time.Format d dateLayout in
  json.Marshal s.

(** [func (d *Date) UnmarshalJSON(value []byte) error].  The receiver is
    passed in and its value after the call is returned with the error. *)
Definition UnmarshalJSON (d : Date) (value : string) : Date * option error :=
  let dateString := EmptyString in
  match json.Unmarshal value dateString with
  | (_, Some err) => (d, Some err)
  | (dateString, None) =>
      match time.Parse dateLayout dateString with
      | (_, Some err) => (d, Some err)
      | (t, None) => (t, None)
      end
  end.

End asana.

(* ================================================================== *)
(** ** Package [util]: the listing functions

    The listing functions talk to two collaborators: the API client, whose
    list methods they call, and the standard output, to which they print.
    A function is embedded as the tree of these interactions ([Prog]): a
    list call hands its three results to the rest of the program, a
    [Printf] writes its output and goes on; what [Printf] returns is not
    used.  The objects of a result are taken as present: the functions
    follow every pointer of the slice they are given. *)

Module util.

Definition newline : string := String (ofZ 10) EmptyString.

Section Listing.

(** The API client of package [asana] and its types are declared outside
    the files at hand.  What the listing functions use of them is taken
    abstractly: the client handle, the continuation token, the type of the
    [ID] fields, and what [fmt] prints for an operand under a verb. *)
Context {Client NextPage ID : Type}.

Record Workspace : Type := mkWorkspace {
  Workspace_ID : ID;
  Workspace_Name : string;
  IsOrganization : bool
}.

Record Project : Type := mkProject {
  Project_ID : ID;
  Project_Name : string
}.

Record Task : Type := mkTask {
  Task_ID : ID;
  Task_Name : string
}.

Record Section_ : Type := mkSection {
  Section_ID : ID;
  Section_Name : string
}.

(** An operand of [Printf]. *)
Inductive operand : Type :=
| anID (i : ID)
| aString (s : string).

(** [fmtVerb v a]: the text [fmt] writes for operand [a] under verb [%v]. *)
Variable fmtVerb : ascii -> operand -> string.

(** [fmt.Sprintf(format, a...)] for formats made of plain text, [%%] and
    one-letter verbs. *)
Fixpoint Sprintf (format : string) (a : list operand) : string :=
  match format with
  | EmptyString => EmptyString
  | String c rest =>
      if (c =? "%")%char then
        match rest with
        | EmptyString => "%!(NOVERB)"
        | String v rest' =>
            if (v =? "%")%char then String "%" (Sprintf rest' a)
            else
              match a with
              | x :: a' => fmtVerb v x ++ Sprintf rest' a'
              | [] => "%!" ++ String v "(MISSING)" ++ Sprintf rest' a
              end
        end
      else String c (Sprintf rest a)
  end.

(** The list methods: [c.Workspaces()], [w.Projects(client)],
    [p.Tasks(client)] and [p.Sections(client)], indexed by the type of the
    objects they return. *)
Inductive listCall : Type -> Type :=
| Workspaces (c : Client) : listCall Workspace
| Projects (w : Workspace) (client : Client) : listCall Project
| Tasks (p : Project) (client : Client) : listCall Task
| Sections (p : Project) (client : Client) : listCall Section_.

(** The three results of a list method: the objects, the continuation
    token (a pointer, possibly nil) and the error. *)
Definition listResult (T : Type) : Type := (list T * option NextPage * option error)%type.

Inductive Prog (R : Type) : Type :=
| Return (r : R)
| Call (T : Type) (m : listCall T) (k : listResult T -> Prog R)
| Output (out : string) (k : Prog R).

Arguments Return {R} r.
Arguments Call {R T} m k.
Arguments Output {R} out k.

Fixpoint bind {A B : Type} (p : Prog A) (f : A -> Prog B) : Prog B :=
  match p with
  | Return a => f a
  | Call m k => Call m (fun r => bind (k r) f)
  | Output out k => Output out (bind k f)
  end.

Notation "x <- p ;; q" := (bind p (fun x => q))
  (at level 61, p at next level, right associativity).
Notation "p ;; q" := (bind p (fun _ => q))
  (at level 61, right associativity).

Definition call {T : Type} (m : listCall T) : Prog (listResult T) :=
  Call m (fun r => Return r).

(** [fmt.Printf(format, a...)]; its results are not used. *)
Definition Printf (format : string) (a : list operand) : Prog unit :=
  Output (Sprintf format a) (Return tt).

(** [for _, x := range xs { body }] *)
Fixpoint forRange {T : Type} (xs : list T) (body : T -> Prog unit) : Prog unit :=
  match xs with
  | [] => Return tt
  | x :: xs' => body x ;; forRange xs' body
  end.

Definition ListWorkspaces (c : Client) : Prog (option error) :=
  (* List workspaces *)
  r <- call (Workspaces c) ;;
  let '(workspaces, nextPage, err) := r in
  match err with
  | Some e => Return (Some e)
  | None =>
      let _ := nextPage in
      forRange workspaces (fun workspace =>
        if IsOrganization workspace then
          Printf ("Organization %s %q" ++ newline)
                 [anID (Workspace_ID workspace); aString (Workspace_Name workspace)]
        else
          Printf ("Workspace %s %q" ++ newline)
                 [anID (Workspace_ID workspace); aString (Workspace_Name workspace)]) ;;
      Return None
  end.

Definition ListProjects (client : Client) (w : Workspace) : Prog (option error) :=
  (* List projects *)
  r <- call (Projects w client) ;;
  let '(projects, nextPage, err) := r in
  match err with
  | Some e => Return (Some e)
  | None =>
      let _ := nextPage in
      forRange projects (fun project =>
        Printf ("Project %s: %q" ++ newline)
               [anID (Project_ID project); aString (Project_Name project)]) ;;
      Return None
  end.

Definition ListTasks (client : Client) (p : Project) : Prog (option error) :=
  (* List projects *)
  r <- call (Tasks p client) ;;
  let '(tasks, nextPage, err) := r in
  match err with
  | Some e => Return (Some e)
  | None =>
      let _ := nextPage in
      forRange tasks (fun task =>
        Printf ("Task %s %q" ++ newline)
               [anID (Task_ID task); aString (Task_Name task)]) ;;
      Return None
  end.

Definition ListSections (client : Client) (p : Project) : Prog (option error) :=
  (* List sections *)
  r <- call (Sections p client) ;;
  let '(sections, nextPage, err) := r in
  match err with
  | Some e => Return (Some e)
  | None =>
      let _ := nextPage in
      forRange sections (fun section =>
        Printf ("Section %s %q" ++ newline)
               [anID (Section_ID section); aString (Section_Name section)]) ;;
      Return None
  end.

(** *** Running a program

    The collaborator is a [service]: it answers a list call from its state
    and moves to a new state, so a second call may answer differently from
    the first (the next page, say).  A run records what happened, in
    order. *)
Definition service (S : Type) : Type :=
  forall T : Type, listCall T -> S -> listResult T * S.

Inductive event : Type :=
| Called (T : Type) (m : listCall T)
| Printed (out : string).

Fixpoint run {S R : Type} (srv : service S) (p : Prog R) (st : S)
  : list event * R * S :=
  match p with
  | Return r => ([], r, st)
  | Call m k =>
      let '(res, st1) := srv _ m st in
      let '(tr, r, st2) := run srv (k res) st1 in
      (Called _ m :: tr, r, st2)
  | Output out k =>
      let '(tr, r, st1) := run srv k st in
      (Printed out :: tr, r, st1)
  end.

(** What a run wrote to standard output, one entry per [Printf], and the
    number of list calls it made. *)
Fixpoint stdout (tr : list event) : list string :=
  match tr with
  | [] => []
  | Printed out :: tr' => out :: stdout tr'
  | Called _ _ :: tr' => stdout tr'
  end.

Fixpoint calls (tr : list event) : nat :=
  match tr with
  | [] => 0
  | Printed _ :: tr' => calls tr'
  | Called _ _ :: tr' => S (calls tr')
  end.

(** What a run printed, and its result. *)
Definition printed {S R : Type} (srv : service S) (p : Prog R) (st : S) : list string :=
  stdout (fst (fst (run srv p st))).

Definition result {S R : Type} (srv : service S) (p : Prog R) (st : S) : R :=
  snd (fst (run srv p st)).

(** The answer of the service to a list call in state [st]: the objects
    and the error. *)
Definition objects {S T : Type} (srv : service S) (m : listCall T) (st : S) : list T :=
  fst (fst (fst (srv T m st))).

Definition failure {S T : Type} (srv : service S) (m : listCall T) (st : S) : option error :=
  snd (fst (srv T m st)).

(** The service [srv] with the continuation token of every answer replaced
    by [np]. *)
Definition withToken {S : Type} (np : option NextPage) (srv : service S) : service S :=
  fun T m st =>
    let r := srv T m st in
    ((fst (fst (fst r)), np, snd (fst r)), snd r).

(** *** The lines

    [formatted label i name] is the line [<TypeLabel> <ID> <Quoted Name>]:
    the label, a space, the identifier as [%s] prints it, a space, the name
    as [%q] prints it, and the end of the line.  [withColon] has a colon
    after the identifier. *)
Definition formatted (label : string) (i : ID) (name : string) : string :=
  label ++ " " ++ fmtVerb "s" (anID i) ++ " " ++ fmtVerb "q" (aString name) ++ newline.

Definition withColon (label : string) (i : ID) (name : string) : string :=
  label ++ " " ++ fmtVerb "s" (anID i) ++ ": " ++ fmtVerb "q" (aString name) ++ newline.

Definition workspaceLine (w : Workspace) : string :=
  formatted (if IsOrganization w then "Organization" else "Workspace")
            (Workspace_ID w) (Workspace_Name w).

Definition projectLine (p : Project) : string :=
  withColon "Project" (Project_ID p) (Project_Name p).

Definition taskLine (t : Task) : string :=
  formatted "Task" (Task_ID t) (Task_Name t).

Definition sectionLine (s : Section_) : string :=
  formatted "Section" (Section_ID s) (Section_Name s).

(** The events of a listing that asked [m] and got [items] and [err]: the
    call, then one line per object unless the call failed. *)
Definition listing {T : Type} (m : listCall T) (line : T -> string)
    (items : list T) (err : option error) : list event :=
  Called T m ::
  match err with
  | Some _ => []
  | None => map (fun x => Printed (line x)) items
  end.

(** A run of [p] lists one page of [m]: it makes the one call [m], prints
    the objects of that answer, returns its error, and leaves the service
    in the state that one call left it in. *)
Definition listsOnePage {S T : Type} (srv : service S) (m : listCall T)
    (line : T -> string) (p : Prog (option error)) (st : S) : Prop :=
  let '(tr, r, st1) := run srv p st in
  calls tr = 1%nat /\
  tr = listing m line (objects srv m st) (failure srv m st) /\
  r = failure srv m st /\
  st1 = snd (srv T m st).

End Listing.

Arguments Return {Client NextPage ID R} r.
Arguments Call {Client NextPage ID R T} m k.
Arguments Output {Client NextPage ID R} out k.

(** *** A service and a [fmt] to run the functions on

    Identifiers are strings; [%s] writes a string as it is and [%q]
    encloses it in double quotes, which is what [fmt] does for text
    without quotes, backslashes and non-printing bytes.  The service
    counts the calls it has answered.  A first call for workspaces returns
    two of them and a token for the next page, later ones a third
    workspace; the projects of a workspace are one project; a project has
    no tasks; and its sections cannot be listed. *)
Definition plainVerb (v : ascii) (a : operand (ID:=string)) : string :=
  let s := match a with anID i => i | aString s => s end in
  if (v =? "q")%char then String dquote (s ++ String dquote EmptyString) else s.

Definition acme : Workspace (ID:=string) := mkWorkspace "1" "Acme" true.
Definition launch : Project (ID:=string) := mkProject "7" "Launch".

Definition demoService : service (Client:=unit) (NextPage:=string) (ID:=string) nat :=
  fun T m n =>
    match m in listCall T return listResult (NextPage:=string) T * nat with
    | Workspaces _ =>
        match n with
        | O => (([acme; mkWorkspace "2" "Home" false],
                 Some "offset=2", None), S n)
        | _ => (([mkWorkspace "3" "Lab" false], None, None), S n)
        end
    | Projects _ _ => (([launch], None, None), S n)
    | Tasks _ _ => (([], None, None), S n)
    | Sections _ _ => (([], None, Some (errorString "forbidden")), S n)
    end.

End util.

(* ================================================================== *)
(** ** Vocabulary of the properties *)

Module Spec.

(** The JSON string literal whose content is the plain text [s]. *)
Definition jsonString (s : string) : string :=
  String dquote (s ++ String dquote EmptyString).

Definition isDecimal (c : ascii) : bool := between "0" c "9".

(** The exact pattern YYYY-MM-DD: ten bytes, four digits, a hyphen, two
    digits, a hyphen, two digits. *)
Definition matchesPattern (s : string) : bool :=
  match s with
  | String y0 (String y1 (String y2 (String y3 (String h0
      (String m0 (String m1 (String h1 (String d0 (String d1 EmptyString))))))))) =>
      isDecimal y0 && isDecimal y1 && isDecimal y2 && isDecimal y3 &&
      (h0 =? "-")%char && isDecimal m0 && isDecimal m1 &&
      (h1 =? "-")%char && isDecimal d0 && isDecimal d1
  | _ => false
  end.

(** The number [n] written with exactly two, or exactly four, decimal
    digits, padded with zeros. *)
Definition twoDigits (n : Z) : string :=
  String (digit (n / 10 mod 10)) (String (digit (n mod 10)) EmptyString).

Definition fourDigits (n : Z) : string :=
  String (digit (n / 1000 mod 10)) (String (digit (n / 100 mod 10))
    (String (digit (n / 10 mod 10)) (String (digit (n mod 10)) EmptyString))).

(** The text YYYY-MM-DD of a calendar date. *)
Definition YYYY_MM_DD (y m d : Z) : string :=
  fourDigits y ++ "-" ++ twoDigits m ++ "-" ++ twoDigits d.

(** A valid calendar date: a month of the year and a day of that month. *)
Definition validDate (y m d : Z) : Prop :=
  1 <= m <= 12 /\ 1 <= d <= time.daysIn m y.

(** The [Date] of a calendar date: that day at 00:00:00 UTC, as
    [time.Date(y, m, d, 0, 0, 0, 0, time.UTC)] gives it. *)
Definition dateOf (y m d : Z) : asana.Date :=
  time.Date y m d 0 0 0 0 time.UTC.

(** Encode [d], then decode the bytes into the receiver [d0]. *)
Definition roundTrip (d0 d : asana.Date) : asana.Date * option error :=
  asana.UnmarshalJSON d0 (fst (asana.MarshalJSON d)).

(** A JSON text whose value is a string literal. *)
Definition isStringValue (value : string) : bool :=
  match json.skipSpace value with
  | String c _ => (c =? dquote)%char
  | EmptyString => false
  end.

(** The letters of the two-byte escapes. *)
Definition simpleEscape (e : ascii) : bool :=
  (e =? "b")%char || (e =? "f")%char || (e =? "n")%char || (e =? "r")%char ||
  (e =? "t")%char || (e =? backslash)%char || (e =? "/")%char || (e =? dquote)%char.

(** The contents of a JSON string literal, between the quotes: bytes from
    space on other than the quote and the backslash, the two-byte escapes,
    and the escapes [\uXXXX]. *)
Inductive content : string -> Prop :=
| content_end : content EmptyString
| content_byte (c : ascii) (s : string) :
    32 <= byteZ c -> (c =? dquote)%char = false -> (c =? backslash)%char = false ->
    content s -> content (String c s)
| content_escape (e : ascii) (s : string) :
    simpleEscape e = true -> content s ->
    content (String backslash (String e s))
| content_unicode (h0 h1 h2 h3 : ascii) (s : string) :
    json.isHex h0 = true -> json.isHex h1 = true ->
    json.isHex h2 = true -> json.isHex h3 = true ->
    content s ->
    content (String backslash (String "u" (String h0 (String h1 (String h2 (String h3 s)))))).

(** The scanner is inside a string literal. *)
Definition inString (f : json.stepFn) : bool :=
  match f with
  | json.StateInString | json.StateInStringEsc | json.StateInStringEscU
  | json.StateInStringEscU1 | json.StateInStringEscU12 | json.StateInStringEscU123 => true
  | _ => false
  end.

(** The first [k] bytes of [s] exist and are not ASCII. *)
Fixpoint highPrefix (k : nat) (s : string) : Prop :=
  match k with
  | O => True
  | S k' =>
      match s with
      | String c s' => 128 <= byteZ c /\ highPrefix k' s'
      | EmptyString => False
      end
  end.

(** The decode errors: the syntax and type errors of [encoding/json] and the
    parse errors of [time]. *)
Definition decodeError (e : error) : bool :=
  match e with
  | SyntaxError | UnmarshalTypeError _ | ParseError _ _ _ _ _ => true
  | phasePanic | errorString _ => false
  end.

(** All bytes of [s] satisfy [p]. *)
Fixpoint allBytes (p : ascii -> bool) (s : string) : bool :=
  match s with
  | EmptyString => true
  | String c r => p c && allBytes p r
  end.

(** A [Date] at 00:00:00 UTC. *)
Definition atMidnightUTC (d : asana.Date) : Prop :=
  time.Hour d = 0 /\ time.Minute d = 0 /\ time.Second d = 0 /\
  time.Nanosecond d = 0 /\ time.Loc d = time.UTC.

(** JSON white space: all bytes of [ws] are spaces, tabs, carriage returns
    or line feeds. *)
Definition blank (ws : string) : bool := allBytes json.isSpace ws.

(** The number of occurrences of the byte [c] in [s]. *)
Fixpoint countByte (c : ascii) (s : string) : nat :=
  match s with
  | EmptyString => O
  | String x r => if (x =? c)%char then S (countByte c r) else countByte c r
  end.

(** The bytes of a sequence of writes, one after the other. *)
Fixpoint stream (writes : list string) : string :=
  match writes with
  | [] => EmptyString
  | w :: ws => w ++ stream ws
  end.

(** The byte that ends a line. *)
Definition lineFeed : ascii := ofZ 10.

(** [s] is one line: it ends with a line feed and has no other. *)
Definition oneLine (s : string) : Prop :=
  last s = Some lineFeed /\ countByte lineFeed s = 1%nat.

Definition noLineFeed (s : string) : bool :=
  Nat.eqb (countByte lineFeed s) 0.

(** Neither the identifier [i] under [%s] nor the name under [%q] is
    printed with a line feed in it. *)
Definition quiet {ID : Type} (fmtVerb : ascii -> util.operand (ID:=ID) -> string)
    (i : ID) (name : string) : bool :=
  noLineFeed (fmtVerb "s"%char (util.anID i)) &&
  noLineFeed (fmtVerb "q"%char (util.aString name)).

(** The writes are [n] whole lines: each write is one line, and the bytes
    written have [n] line feeds. *)
Definition wholeLines (writes : list string) (n : nat) : Prop :=
  Forall oneLine writes /\ countByte lineFeed (stream writes) = n.

End Spec.

(* ================================================================== *)
(** * Properties *)

(** ** Facts about bytes and strings *)

Module StringFacts.

Lemma append_empty_r (s : string) : s ++ EmptyString = s.
Proof. induction s as [|c s IH]; simpl; [reflexivity | now rewrite IH]. Qed.

Lemma append_assoc (a b c : string) : (a ++ b) ++ c = a ++ (b ++ c).
Proof. induction a as [|x a IH]; simpl; [reflexivity | now rewrite IH]. Qed.

Lemma length_append (a b : string) :
  String.length (a ++ b) = (String.length a + String.length b)%nat.
Proof. induction a as [|x a IH]; simpl; [reflexivity | now rewrite IH]. Qed.

Lemma last_snoc (s : string) (c : ascii) : last (s ++ String c EmptyString) = Some c.
Proof.
  induction s as [|x s IH]; simpl; [reflexivity|].
  destruct (s ++ String c EmptyString) eqn:E; [destruct s; discriminate | exact IH].
Qed.

Lemma init_snoc (s : string) (c : ascii) : init (s ++ String c EmptyString) = s.
Proof.
  induction s as [|x s IH]; simpl; [reflexivity|].
  destruct (s ++ String c EmptyString) eqn:E; [destruct s; discriminate |].
  now rewrite IH.
Qed.

(** Case analysis over the 256 bytes. *)
Ltac each_byte c := destruct c as [[] [] [] [] [] [] [] []].

Lemma byteZ_digit n : 0 <= n <= 9 -> byteZ (digit n) = 48 + n.
Proof.
  intros H. unfold byteZ, digit, ofZ. rewrite N_ascii_embedding; lia.
Qed.

Lemma byteZ_range c : 0 <= byteZ c < 256.
Proof.
  unfold byteZ. pose proof (N_ascii_bounded c). lia.
Qed.

Lemma ofZ_byteZ c : ofZ (byteZ c) = c.
Proof. unfold ofZ, byteZ. rewrite N2Z.id. apply ascii_N_embedding. Qed.

Lemma between_digit n : 0 <= n <= 9 -> between "0" (digit n) "9" = true.
Proof.
  intros H. unfold between. rewrite (byteZ_digit n H).
  change (byteZ "0") with 48. change (byteZ "9") with 57.
  apply andb_true_iff; split; apply Z.leb_le; lia.
Qed.

Lemma digit_inv c :
  between "0" c "9" = true -> exists n, 0 <= n <= 9 /\ c = digit n.
Proof.
  unfold between. change (byteZ "0") with 48. change (byteZ "9") with 57.
  intros H. apply andb_true_iff in H. destruct H as [H1 H2].
  apply Z.leb_le in H1, H2.
  exists (byteZ c - 48). split; [lia|].
  unfold digit. replace (48 + (byteZ c - 48)) with (byteZ c) by lia.
  symmetry; apply ofZ_byteZ.
Qed.

Lemma eqb_byteZ (a b : ascii) : (a =? b)%char = (byteZ a =? byteZ b).
Proof.
  destruct (Ascii.eqb_spec a b) as [->|N].
  - now rewrite Z.eqb_refl.
  - symmetry. apply Z.eqb_neq. intros E. apply N.
    rewrite <- (ofZ_byteZ a), <- (ofZ_byteZ b). now rewrite E.
Qed.

End StringFacts.
Import StringFacts.

(** ** Package [time] on the layout of dates *)

Module TimeFacts.
Import time Spec.

Lemma Format_dateLayout (t : Time) :
  Format t asana.dateLayout =
  appendInt (Year t) 4 ++ "-" ++ appendInt (Month t) 2 ++ "-" ++ appendInt (Day t) 2.
Proof.
  unfold Format, asana.dateLayout. cbn -[appendInt].
  now rewrite append_empty_r.
Qed.

Lemma appendInt_2 (n : Z) : 0 <= n <= 99 -> appendInt n 2 = twoDigits n.
Proof.
  intros H. unfold appendInt, twoDigits.
  replace (n <? 0) with false by (symmetry; apply Z.ltb_ge; lia).
  rewrite Z.abs_eq by lia.
  replace (n <? 100) with true by (symmetry; apply Z.ltb_lt; lia).
  cbn [Z.eqb Pos.eqb andb append].
  rewrite (Z.mod_small (n / 10) 10); [reflexivity|].
  split; [apply Z.div_pos; lia | apply Z.div_lt_upper_bound; lia].
Qed.

Lemma div100_div10 n : 0 <= n <= 9999 -> n / 100 / 10 = n / 1000 mod 10.
Proof.
  intros H. rewrite Z.div_div by lia. simpl. rewrite Z.mod_small; [reflexivity|].
  split; [apply Z.div_pos; lia | apply Z.div_lt_upper_bound; lia].
Qed.

Lemma mod100_div10 n : 0 <= n -> (n mod 100) / 10 = n / 10 mod 10.
Proof.
  intros H. change 100 with (10 * 10). rewrite (Z.rem_mul_r n 10 10) by lia.
  rewrite Z.add_comm, Z.mul_comm, Z.div_add_l by lia.
  rewrite (Z.div_small (n mod 10)); [lia|]. apply Z.mod_pos_bound; lia.
Qed.

Lemma mod100_mod10 n : 0 <= n -> (n mod 100) mod 10 = n mod 10.
Proof.
  intros H. change 100 with (10 * 10). rewrite (Z.rem_mul_r n 10 10) by lia.
  rewrite (Z.mul_comm 10 (n / 10 mod 10)), Z.mod_add by lia. apply Z.mod_mod; lia.
Qed.

Lemma fourDigits_value n :
  0 <= n <= 9999 ->
  ((n / 1000 mod 10 * 10 + n / 100 mod 10) * 10 + n / 10 mod 10) * 10 + n mod 10 = n.
Proof. intros H. Z.to_euclidean_division_equations. lia. Qed.

Lemma twoDigits_value n : 0 <= n <= 99 -> (n / 10 mod 10) * 10 + n mod 10 = n.
Proof. intros H. Z.to_euclidean_division_equations. lia. Qed.

Lemma mod10_range n : 0 <= n mod 10 <= 9.
Proof. pose proof (Z.mod_pos_bound n 10). lia. Qed.

Lemma appendInt_4 (n : Z) : 0 <= n <= 9999 -> appendInt n 4 = fourDigits n.
Proof.
  intros H. unfold appendInt, fourDigits.
  replace (n <? 0) with false by (symmetry; apply Z.ltb_ge; lia).
  rewrite Z.abs_eq by lia.
  replace (n <? 10000) with true by (symmetry; apply Z.ltb_lt; lia).
  cbn [Z.eqb Pos.eqb andb append].
  now rewrite div100_div10, mod100_div10, mod100_mod10 by lia.
Qed.

Lemma between_09 c : between "0" c "9" = (48 <=? byteZ c) && (byteZ c <=? 57).
Proof. reflexivity. Qed.

Lemma leadingInt_digit n x r :
  0 <= n <= 9 -> 0 <= x <= 99999 ->
  leadingInt x (String (digit n) r) = leadingInt (x * 10 + n) r.
Proof.
  intros Hn Hx. cbn [leadingInt]. rewrite (byteZ_digit n Hn).
  replace (48 + n <? 48) with false by (symmetry; apply Z.ltb_ge; lia).
  replace (57 <? 48 + n) with false by (symmetry; apply Z.ltb_ge; lia).
  cbn [orb].
  replace (2 ^ 63 / 10 <? x) with false
    by (symmetry; apply Z.ltb_ge; change (2 ^ 63 / 10) with 922337203685477580; lia).
  replace (2 ^ 63 <? x * 10 + (48 + n) - 48) with false
    by (symmetry; apply Z.ltb_ge; change (2 ^ 63) with 9223372036854775808; lia).
  f_equal. lia.
Qed.

Lemma leadingInt_other c x r :
  between "0" c "9" = false -> leadingInt x (String c r) = Some (x, String c r).
Proof.
  rewrite between_09. intros H. cbn [leadingInt].
  replace ((byteZ c <? 48) || (57 <? byteZ c)) with true; [reflexivity|].
  symmetry. apply andb_false_iff in H. apply orb_true_iff.
  destruct H as [H|H]; apply Z.leb_gt in H; [left|right]; apply Z.ltb_lt; lia.
Qed.

Lemma digit_not_sign c :
  between "0" c "9" = true -> (c =? "-")%char || (c =? "+")%char = false.
Proof.
  rewrite between_09, !eqb_byteZ. change (byteZ "-") with 45. change (byteZ "+") with 43.
  intros H. apply andb_true_iff in H. destruct H as [H _]. apply Z.leb_le in H.
  apply orb_false_iff; split; apply Z.eqb_neq; lia.
Qed.

Lemma atoi_digits a b c d :
  0 <= a <= 9 -> 0 <= b <= 9 -> 0 <= c <= 9 -> 0 <= d <= 9 ->
  atoi (String (digit a) (String (digit b) (String (digit c) (String (digit d) EmptyString))))
  = Some (((a * 10 + b) * 10 + c) * 10 + d).
Proof.
  intros Ha Hb Hc Hd. unfold atoi.
  rewrite (digit_not_sign (digit a)) by now apply between_digit.
  rewrite !leadingInt_digit by lia. cbn [leadingInt].
  replace (_ =? 2 ^ 63) with false
    by (symmetry; apply Z.eqb_neq; change (2 ^ 63) with 9223372036854775808; lia).
  f_equal.
Qed.

Lemma atoi_four_inv c0 c1 c2 c3 y :
  between "0" c0 "9" = true ->
  atoi (String c0 (String c1 (String c2 (String c3 EmptyString)))) = Some y ->
  exists a b c d,
    (0 <= a <= 9 /\ 0 <= b <= 9 /\ 0 <= c <= 9 /\ 0 <= d <= 9) /\
    (c0 = digit a /\ c1 = digit b /\ c2 = digit c /\ c3 = digit d) /\
    y = ((a * 10 + b) * 10 + c) * 10 + d.
Proof.
  intros H0 Hy. pose proof Hy as Hy'.
  destruct (digit_inv c0 H0) as (a & Ha & ->).
  unfold atoi in Hy'. rewrite (digit_not_sign _ H0) in Hy'.
  rewrite leadingInt_digit in Hy' by lia.
  destruct (between "0" c1 "9") eqn:H1;
    [|rewrite (leadingInt_other _ _ _ H1) in Hy'; discriminate].
  destruct (digit_inv c1 H1) as (b & Hb & ->).
  rewrite leadingInt_digit in Hy' by lia.
  destruct (between "0" c2 "9") eqn:H2;
    [|rewrite (leadingInt_other _ _ _ H2) in Hy'; discriminate].
  destruct (digit_inv c2 H2) as (c & Hc & ->).
  rewrite leadingInt_digit in Hy' by lia.
  destruct (between "0" c3 "9") eqn:H3;
    [|rewrite (leadingInt_other _ _ _ H3) in Hy'; discriminate].
  destruct (digit_inv c3 H3) as (d & Hd & ->).
  exists a, b, c, d. repeat split; try lia.
  rewrite atoi_digits in Hy by assumption. now injection Hy as <-.
Qed.

Lemma getnum_digits a b r :
  0 <= a <= 9 -> 0 <= b <= 9 ->
  getnum (String (digit a) (String (digit b) r)) true = Some (a * 10 + b, r).
Proof.
  intros Ha Hb. unfold getnum, isDigit. cbn [String.get negb].
  rewrite !between_digit by assumption. cbn [negb].
  rewrite !byteZ_digit by assumption. do 2 f_equal. lia.
Qed.

Lemma getnum_fixed_inv s n r :
  getnum s true = Some (n, r) ->
  exists a b, (0 <= a <= 9 /\ 0 <= b <= 9) /\
              s = String (digit a) (String (digit b) r) /\ n = a * 10 + b.
Proof.
  unfold getnum, isDigit. destruct s as [|c0 [|c1 r']]; cbn [String.get]; try discriminate.
  - destruct (between "0" c0 "9"); discriminate.
  - destruct (between "0" c0 "9") eqn:H0; cbn [negb]; [|discriminate].
    destruct (between "0" c1 "9") eqn:H1; cbn [negb]; [|discriminate].
    intros E. injection E as <- <-.
    destruct (digit_inv c0 H0) as (a & Ha & ->).
    destruct (digit_inv c1 H1) as (b & Hb & ->).
    exists a, b. rewrite !byteZ_digit by assumption. repeat split; try lia.
Qed.

Lemma skip_hyphen (r : string) : skip (String "-" r) "-" = (r, true).
Proof. reflexivity. Qed.

Lemma skip_hyphen_inv (v v' : string) :
  skip v "-" = (v', true) -> v = String "-" v'.
Proof.
  unfold skip. destruct v as [|c r]; cbn; [discriminate|].
  destruct (Ascii.eqb_spec c "-") as [->|N]; cbn; [|discriminate].
  now intros E; injection E as ->.
Qed.

Lemma length_drop (n : nat) (s : string) :
  (String.length (drop n s) <= String.length s)%nat.
Proof.
  revert s. induction n as [|n IH]; intros [|c s]; cbn [drop String.length]; try lia.
  specialize (IH s). lia.
Qed.

(** An element found by [nextStdChunk] leaves a shorter layout. *)
Lemma nextStdChunk_shorter (layout pre suffix : string) (s : std) :
  nextStdChunk layout = (pre, s, suffix) -> s <> stdNone ->
  (String.length suffix < String.length layout)%nat.
Proof.
  revert pre. induction layout as [|c rest IH]; intros pre; cbn [nextStdChunk].
  - intros E; injection E as <- <- <-. congruence.
  - destruct (prefix "2006" (String c rest)).
    { intros E _. injection E as <- <- <-.
      cbn [drop String.length].
      pose proof (length_drop 3 rest) as H. cbn [drop] in H. lia. }
    destruct (prefix "01" (String c rest)).
    { intros E _. injection E as <- <- <-.
      cbn [drop String.length].
      pose proof (length_drop 1 rest) as H. cbn [drop] in H. lia. }
    destruct (prefix "02" (String c rest)).
    { intros E _. injection E as <- <- <-.
      cbn [drop String.length].
      pose proof (length_drop 1 rest) as H. cbn [drop] in H. lia. }
    destruct (nextStdChunk rest) as [[p s'] suf] eqn:E'.
    intros E N. injection E as <- <- <-.
    specialize (IH p eq_refl N). cbn [String.length]. lia.
Qed.

(** The loops of [Format] and [Parse] do not run out of fuel. *)
Lemma appendFormat_fuel (fuel : nat) (t : Time) (layout : string) :
  (String.length layout < fuel)%nat -> appendFormat fuel t layout <> None.
Proof.
  revert layout. induction fuel as [|fuel IH]; intros layout Hlen; [lia|].
  cbn [appendFormat]. destruct layout as [|c rest]; [discriminate|].
  destruct (nextStdChunk (String c rest)) as [[pre s] suffix] eqn:E.
  assert (s <> stdNone -> appendFormat fuel t suffix <> None) as Hrec.
  { intros N. apply IH. pose proof (nextStdChunk_shorter _ _ _ _ E N). lia. }
  destruct s; try discriminate;
    (destruct (appendFormat fuel t suffix); [discriminate | now apply Hrec]).
Qed.

Lemma parse_loop_fuel (fuel : nat) (alayout avalue layout : string) (st : fields) :
  (String.length layout < fuel)%nat ->
  parse_loop fuel alayout avalue layout st <> None.
Proof.
  revert layout st. induction fuel as [|fuel IH]; intros layout st Hlen; [lia|].
  cbn [parse_loop].
  destruct (nextStdChunk layout) as [[pre s] suffix] eqn:E.
  assert (s <> stdNone -> forall st', parse_loop fuel alayout avalue suffix st' <> None)
    as Hrec.
  { intros N st'. apply IH. pose proof (nextStdChunk_shorter _ _ _ _ E N). lia. }
  destruct (skip (f_value st) pre) as [value ok].
  destruct ok; cbn [negb]; [|discriminate].
  destruct s.
  - destruct (negb _); discriminate.
  - destruct (_ || _); [discriminate|].
    destruct (atoi _); [apply Hrec|]; discriminate.
  - destruct (getnum value true) as [[month value']|]; [|discriminate].
    destruct (_ || _); [discriminate | apply Hrec; discriminate].
  - destruct (getnum value true) as [[day value']|]; [|discriminate].
    apply Hrec; discriminate.
Qed.

Lemma parse_loop_S fuel al av layout st :
  parse_loop (S fuel) al av layout st =
      let '(pre, s, suffix) := nextStdChunk layout in
      let stdstr :=
        take (String.length layout - String.length pre - String.length suffix)
             (drop (String.length pre) layout) in
      let '(value, ok) := skip (f_value st) pre in
      if negb ok then Some (inr (ParseError al av pre value msgNone))
      else
        match s with
        | stdNone =>
            if negb (len value =? 0)
            then Some (inr (ParseError al av EmptyString value msgExtraText))
            else Some (inl (mkFields (f_year st) (f_month st) (f_day st) value))
        | stdLongYear =>
            if (len value <? 4) || negb (isDigit value 0)
            then Some (inr (ParseError al av stdstr value msgNone))
            else
              match atoi (take 4 value) with
              | None => Some (inr (ParseError al av stdstr value msgNone))
              | Some year =>
                  parse_loop fuel al av suffix
                    (mkFields year (f_month st) (f_day st) (drop 4 value))
              end
        | stdZeroMonth =>
            match getnum value true with
            | None => Some (inr (ParseError al av stdstr value msgNone))
            | Some (month, value') =>
                if (month <=? 0) || (12 <? month)
                then Some (inr (ParseError al av stdstr value'
                                  (msgOutOfRange "month")))
                else parse_loop fuel al av suffix
                       (mkFields (f_year st) month (f_day st) value')
            end
        | stdZeroDay =>
            match getnum value true with
            | None => Some (inr (ParseError al av stdstr value msgNone))
            | Some (day, value') =>
                parse_loop fuel al av suffix
                  (mkFields (f_year st) (f_month st) day value')
            end
        end.
Proof. reflexivity. Qed.

Lemma skip_empty v : skip v EmptyString = (v, true).
Proof. reflexivity. Qed.


Ltac parse_round chunk elem :=
  rewrite parse_loop_S;
  match goal with
  | |- context [nextStdChunk ?l] => change (nextStdChunk l) with chunk
  end;
  cbv iota beta zeta;
  cbn [f_value f_year f_month f_day];
  try match goal with
  | |- context [take ?n (drop ?k ?l)] => change (take n (drop k l)) with elem
  end.

(** [Parse] on [dateLayout], round by round: the year, a hyphen, the month,
    a hyphen, the day, the end of the value, and the check of the day. *)
Lemma Parse_dateLayout (value : string) :
  Parse asana.dateLayout value =
  let L := asana.dateLayout in
  if (len value <? 4) || negb (isDigit value 0)
  then (zero, Some (ParseError L value "2006" value msgNone))
  else
    match atoi (take 4 value) with
    | None => (zero, Some (ParseError L value "2006" value msgNone))
    | Some year =>
        let '(v1, ok1) := skip (drop 4 value) "-" in
        if negb ok1 then (zero, Some (ParseError L value "-" v1 msgNone))
        else
          match getnum v1 true with
          | None => (zero, Some (ParseError L value "01" v1 msgNone))
          | Some (month, v2) =>
              if (month <=? 0) || (12 <? month)
              then (zero, Some (ParseError L value "01" v2 (msgOutOfRange "month")))
              else
                let '(v3, ok3) := skip v2 "-" in
                if negb ok3 then (zero, Some (ParseError L value "-" v3 msgNone))
                else
                  match getnum v3 true with
                  | None => (zero, Some (ParseError L value "02" v3 msgNone))
                  | Some (day, v4) =>
                      if negb (len v4 =? 0)
                      then (zero, Some (ParseError L value EmptyString v4 msgExtraText))
                      else if (day <? 1) || (daysIn month year <? day)
                      then (zero, Some (ParseError L value EmptyString v4
                                          (msgOutOfRange "day")))
                      else (Date year month day 0 0 0 0 UTC, None)
                  end
          end
    end.
Proof.
  unfold Parse, asana.dateLayout.
  change (S (String.length "2006-01-02")) with 11%nat.
  parse_round (EmptyString, stdLongYear, "-01-02") "2006".
  rewrite skip_empty; cbv iota beta; change (negb true) with false; cbv iota.
  destruct (_ || _); [reflexivity|].
  destruct (atoi _) as [year|]; [|reflexivity].
  parse_round ("-", stdZeroMonth, "-02") "01".
  destruct (skip (drop 4 value) "-") as [v1 ok1].
  destruct ok1; cbn [negb]; [|reflexivity].
  destruct (getnum v1 true) as [[month v2]|]; [|reflexivity].
  destruct (_ || _) eqn:Hmonth; [reflexivity|].
  parse_round ("-", stdZeroDay, EmptyString) "02".
  destruct (skip v2 "-") as [v3 ok3].
  destruct ok3; cbn [negb]; [|reflexivity].
  destruct (getnum v3 true) as [[day v4]|] eqn:Hday; [|reflexivity].
  parse_round (EmptyString, stdNone, EmptyString) EmptyString.
  rewrite skip_empty; cbv iota beta; change (negb true) with false; cbv iota.
  destruct (negb _); [reflexivity|].
  cbn [f_value f_year f_month f_day].
  apply orb_false_iff in Hmonth. destruct Hmonth as [Hm1 Hm2].
  apply Z.leb_gt in Hm1.
  destruct (getnum_fixed_inv _ _ _ Hday) as (a & b & Hab & _ & ->).
  replace (month <? 0) with false by (symmetry; apply Z.ltb_ge; lia).
  replace (a * 10 + b <? 0) with false by (symmetry; apply Z.ltb_ge; lia).
  reflexivity.
Qed.

Lemma daysIn_le_31 (m y : Z) : 1 <= m <= 12 -> daysIn m y <= 31.
Proof.
  intros H. unfold daysIn.
  assert (m = 1 \/ m = 2 \/ m = 3 \/ m = 4 \/ m = 5 \/ m = 6 \/ m = 7 \/ m = 8 \/
          m = 9 \/ m = 10 \/ m = 11 \/ m = 12) as C by lia.
  clear H.
  repeat (destruct C as [C|C]); subst m;
    destruct (isLeap y); vm_compute; discriminate.
Qed.

Lemma digits_range n : 0 <= n / 10 mod 10 <= 9 /\ 0 <= n mod 10 <= 9.
Proof. split; apply mod10_range. Qed.

(** [Parse] accepts the text YYYY-MM-DD of every valid calendar date of the
    years 0 to 9999, and yields that day at midnight UTC. *)
Lemma Parse_YYYY_MM_DD (y m d : Z) :
  0 <= y <= 9999 -> validDate y m d ->
  Parse asana.dateLayout (YYYY_MM_DD y m d) = (dateOf y m d, None).
Proof.
  intros Hy [Hm Hd]. pose proof (daysIn_le_31 m y Hm) as H31.
  rewrite Parse_dateLayout. cbv zeta.
  unfold YYYY_MM_DD, fourDigits, twoDigits. cbn [append].
  change (len _ <? 4) with false.
  unfold isDigit at 1. cbn [String.get take drop].
  rewrite between_digit by apply mod10_range. cbn [negb orb].
  rewrite atoi_digits by apply mod10_range.
  rewrite fourDigits_value by assumption.
  rewrite skip_hyphen. cbn [negb].
  rewrite getnum_digits by apply mod10_range.
  rewrite twoDigits_value by lia.
  replace ((m <=? 0) || (12 <? m)) with false
    by (symmetry; apply orb_false_iff; split; [apply Z.leb_gt|apply Z.ltb_ge]; lia).
  rewrite skip_hyphen. cbn [negb].
  rewrite getnum_digits by apply mod10_range.
  rewrite twoDigits_value by lia.
  change (negb (len EmptyString =? 0)) with false. cbv iota.
  replace ((d <? 1) || (daysIn m y <? d)) with false
    by (symmetry; apply orb_false_iff; split; apply Z.ltb_ge; lia).
  reflexivity.
Qed.

Lemma fourDigits_digits (a b c d : Z) :
  0 <= a <= 9 -> 0 <= b <= 9 -> 0 <= c <= 9 -> 0 <= d <= 9 ->
  fourDigits (((a * 10 + b) * 10 + c) * 10 + d) =
  String (digit a) (String (digit b) (String (digit c) (String (digit d) EmptyString))).
Proof.
  intros Ha Hb Hc Hd. unfold fourDigits.
  repeat f_equal; Z.to_euclidean_division_equations; lia.
Qed.

Lemma twoDigits_digits (a b : Z) :
  0 <= a <= 9 -> 0 <= b <= 9 ->
  twoDigits (a * 10 + b) = String (digit a) (String (digit b) EmptyString).
Proof.
  intros Ha Hb. unfold twoDigits.
  repeat f_equal; Z.to_euclidean_division_equations; lia.
Qed.

Lemma len_zero (s : string) : (len s =? 0) = true -> s = EmptyString.
Proof. destruct s; [reflexivity | discriminate]. Qed.

(** [Parse] succeeds on nothing else: an accepted value is the text
    YYYY-MM-DD of a valid calendar date of the years 0 to 9999, and the
    result is that day at midnight UTC. *)
Lemma Parse_ok_inv (value : string) (t : Time) :
  Parse asana.dateLayout value = (t, None) ->
  exists y m d,
    0 <= y <= 9999 /\ validDate y m d /\
    value = YYYY_MM_DD y m d /\ t = dateOf y m d.
Proof.
  rewrite Parse_dateLayout. cbv zeta.
  destruct (_ || _) eqn:Hhead; [discriminate|].
  apply orb_false_iff in Hhead. destruct Hhead as [Hlen Hdig].
  apply negb_false_iff in Hdig.
  destruct value as [|c0 [|c1 [|c2 [|c3 rest]]]]; try discriminate Hlen.
  unfold isDigit in Hdig. cbn [String.get] in Hdig. cbn [take drop].
  destruct (atoi _) as [year|] eqn:Hyear; [|discriminate].
  destruct (atoi_four_inv _ _ _ _ _ Hdig Hyear)
    as (a & b & c & d & (Ha & Hb & Hc & Hd) & (-> & -> & -> & ->) & ->).
  destruct (skip rest "-") as [v1 ok1] eqn:Hs1.
  destruct ok1; cbn [negb]; [|discriminate].
  apply (skip_hyphen_inv rest v1) in Hs1. subst rest.
  destruct (getnum v1 true) as [[month v2]|] eqn:Hmonth; [|discriminate].
  destruct (getnum_fixed_inv _ _ _ Hmonth) as (e & f & (He & Hf) & -> & ->).
  destruct (_ || _) eqn:Hrange; [discriminate|].
  apply orb_false_iff in Hrange. destruct Hrange as [Hr1 Hr2].
  apply Z.leb_gt in Hr1. apply Z.ltb_ge in Hr2.
  destruct (skip v2 "-") as [v3 ok3] eqn:Hs3.
  destruct ok3; cbn [negb]; [|discriminate].
  apply (skip_hyphen_inv v2 v3) in Hs3. subst v2.
  destruct (getnum v3 true) as [[day v4]|] eqn:Hday; [|discriminate].
  destruct (getnum_fixed_inv _ _ _ Hday) as (g & h & (Hg & Hh) & -> & ->).
  destruct (len v4 =? 0) eqn:Hend; cbn [negb]; [|discriminate].
  apply len_zero in Hend. subst v4.
  destruct (_ || _) eqn:Hdrange; [discriminate|].
  apply orb_false_iff in Hdrange. destruct Hdrange as [Hd1 Hd2].
  apply Z.ltb_ge in Hd1, Hd2.
  intros E. injection E as <-.
  exists (((a * 10 + b) * 10 + c) * 10 + d), (e * 10 + f), (g * 10 + h).
  split; [lia|]. split; [split; lia|]. split; [|reflexivity].
  unfold YYYY_MM_DD.
  rewrite fourDigits_digits, !twoDigits_digits by assumption. reflexivity.
Qed.

Lemma matchesPattern_YYYY_MM_DD (y m d : Z) : matchesPattern (YYYY_MM_DD y m d) = true.
Proof.
  unfold YYYY_MM_DD, fourDigits, twoDigits, matchesPattern, isDecimal. cbn [append].
  rewrite !between_digit by apply mod10_range. reflexivity.
Qed.

(** A value that does not match the pattern is refused. *)
Lemma Parse_no_match (value : string) :
  matchesPattern value = false ->
  exists e, Parse asana.dateLayout value = (zero, Some e).
Proof.
  intros Hno.
  destruct (Parse asana.dateLayout value) as [t [e|]] eqn:E.
  - exists e. f_equal.
    revert E. rewrite Parse_dateLayout. cbv zeta.
    repeat match goal with
           | |- context [if ?b then _ else _] => destruct b
           | |- context [match ?x with Some _ => _ | None => _ end] => destruct x
           | |- context [let '(_, _) := ?x in _] => destruct x
           end; intros E; injection E; congruence.
  - destruct (Parse_ok_inv _ _ E) as (y & m & d & _ & _ & -> & _).
    rewrite matchesPattern_YYYY_MM_DD in Hno. discriminate.
Qed.

(** The errors of [Parse] are parse errors. *)
Lemma Parse_error_kind (value : string) (t : Time) (e : error) :
  Parse asana.dateLayout value = (t, Some e) -> decodeError e = true.
Proof.
  rewrite Parse_dateLayout. cbv zeta.
  repeat match goal with
         | |- context [if ?b then _ else _] => destruct b
         | |- context [match ?x with Some _ => _ | None => _ end] => destruct x
         | |- context [let '(_, _) := ?x in _] => destruct x
         end; intros E; inversion E; reflexivity.
Qed.

End TimeFacts.

(** ** Package [encoding/json] on plain text

    Plain text is made of the bytes of [htmlSafeSet]: the encoder copies
    them, and the scanner and the decoder read them as they are. *)

Module JsonFacts.
Import json Spec TimeFacts.

Lemma plain_byte (c : ascii) :
  htmlSafeSet c = true ->
  (32 <= byteZ c < 128) /\ (c =? dquote)%char = false /\ (c =? backslash)%char = false.
Proof.
  unfold htmlSafeSet. intros H.
  apply andb_true_iff in H. destruct H as [H Hn].
  apply andb_true_iff in H. destruct H as [H1 H2].
  apply Z.leb_le in H1. apply Z.ltb_lt in H2.
  apply negb_true_iff in Hn. repeat (apply orb_false_iff in Hn; destruct Hn as [Hn ?]).
  auto.
Qed.

Lemma appendString_plain (s : string) :
  allBytes htmlSafeSet s = true -> appendString_loop 0 true s = s.
Proof.
  induction s as [|c s IH]; cbn [allBytes appendString_loop]; [reflexivity|].
  intros H. apply andb_true_iff in H. destruct H as [Hc Hs].
  destruct (plain_byte c Hc) as ((_ & Hlt) & _).
  replace (byteZ c <? utf8.RuneSelf) with true by (symmetry; apply Z.ltb_lt; exact Hlt).
  rewrite Hc. now rewrite IH.
Qed.

Lemma Marshal_plain (s : string) :
  allBytes htmlSafeSet s = true -> Marshal s = (jsonString s, None).
Proof.
  intros H. unfold Marshal, appendString, jsonString. now rewrite appendString_plain.
Qed.

Lemma scan_plain (s r : string) (e : bool) (st : list parseState) :
  allBytes htmlSafeSet s = true ->
  scan (mkScanner StateInString e st) (s ++ r) = scan (mkScanner StateInString e st) r.
Proof.
  induction s as [|c s IH]; cbn [allBytes append scan]; [reflexivity|].
  intros H. apply andb_true_iff in H. destruct H as [Hc Hs].
  destruct (plain_byte c Hc) as ((Hge & _) & Hq & Hb).
  unfold scan_step. cbn [step]. unfold stateInString. rewrite Hq, Hb.
  replace (byteZ c <? 32) with false by (symmetry; apply Z.ltb_ge; exact Hge).
  now apply IH.
Qed.

Lemma checkValid_jsonString (s : string) :
  allBytes htmlSafeSet s = true -> checkValid (jsonString s) = true.
Proof.
  intros H. unfold checkValid, jsonString. cbn [scan].
  change (scan_step reset dquote) with (Some (mkScanner StateInString false [])).
  cbv iota beta. rewrite (scan_plain s _ _ _ H). reflexivity.
Qed.

Lemma rescanString_plain (s r : string) :
  allBytes htmlSafeSet s = true ->
  rescanString (s ++ String dquote r) = s ++ String dquote EmptyString.
Proof.
  induction s as [|c s IH]; cbn [allBytes append rescanString].
  - reflexivity.
  - intros H. apply andb_true_iff in H. destruct H as [Hc Hs].
    destruct (plain_byte c Hc) as (_ & Hq & Hb). rewrite Hq, Hb. now rewrite IH.
Qed.

Lemma unquote_plain (s : string) :
  allBytes htmlSafeSet s = true -> unquote_loop 0 s = Some s.
Proof.
  induction s as [|c s IH]; cbn [allBytes unquote_loop]; [reflexivity|].
  intros H. apply andb_true_iff in H. destruct H as [Hc Hs].
  destruct (plain_byte c Hc) as ((Hge & Hlt) & Hq & Hb). rewrite Hq, Hb.
  replace (byteZ c <? 32) with false by (symmetry; apply Z.ltb_ge; exact Hge).
  replace (byteZ c <? utf8.RuneSelf) with true by (symmetry; apply Z.ltb_lt; exact Hlt).
  cbn [orb]. now rewrite (IH Hs).
Qed.

(** Decoding the literal of a plain text gives the text back. *)
Lemma Unmarshal_jsonString (s v : string) :
  allBytes htmlSafeSet s = true -> Unmarshal (jsonString s) v = (s, None).
Proof.
  intros H. unfold Unmarshal. rewrite (checkValid_jsonString s H). cbn [negb].
  unfold jsonString. cbn [skipSpace].
  change (isSpace dquote) with false. cbv iota.
  change ((dquote =? "{")%char) with false. change ((dquote =? "[")%char) with false.
  change ((dquote =? "n")%char) with false.
  change ((dquote =? "t")%char || (dquote =? "f")%char) with false.
  change ((dquote =? dquote)%char) with true. cbv iota.
  rewrite (rescanString_plain s _ H). unfold unquoteBytes.
  rewrite last_snoc, init_snoc. cbn [andb].
  change ((dquote =? dquote)%char) with true. cbv iota.
  now rewrite (unquote_plain s H).
Qed.

(** A failed [Unmarshal] leaves the target alone. *)
Lemma Unmarshal_error (data v v' : string) (e : error) :
  Unmarshal data v = (v', Some e) -> v' = v.
Proof.
  unfold Unmarshal.
  repeat match goal with
         | |- context [if ?b then _ else _] => destruct b
         | |- context [match ?x with Some _ => _ | None => _ end] => destruct x
         | |- context [match ?x with EmptyString => _ | String _ _ => _ end] => destruct x
         end; intros E; injection E; congruence.
Qed.

(** A value that is not a string literal does not reach the target. *)
Lemma Unmarshal_not_string (data v : string) :
  isStringValue data = false -> fst (Unmarshal data v) = v.
Proof.
  unfold isStringValue, Unmarshal. intros H.
  destruct (negb (checkValid data)); [reflexivity|].
  destruct (skipSpace data) as [|c rest]; [reflexivity|].
  rewrite H.
  repeat match goal with
         | |- context [if ?b then _ else _] => destruct b
         end; reflexivity.
Qed.

Lemma plain_digit (n : Z) : htmlSafeSet (digit (n mod 10)) = true.
Proof.
  pose proof (mod10_range n) as H.
  assert (n mod 10 = 0 \/ n mod 10 = 1 \/ n mod 10 = 2 \/ n mod 10 = 3 \/ n mod 10 = 4 \/
          n mod 10 = 5 \/ n mod 10 = 6 \/ n mod 10 = 7 \/ n mod 10 = 8 \/ n mod 10 = 9)
    as C by lia.
  repeat (destruct C as [C|C]); rewrite C; reflexivity.
Qed.

Lemma plain_YYYY_MM_DD (y m d : Z) : allBytes htmlSafeSet (YYYY_MM_DD y m d) = true.
Proof.
  unfold YYYY_MM_DD, fourDigits, twoDigits. cbn [append allBytes].
  rewrite !plain_digit. reflexivity.
Qed.

Lemma hex_not_special (h : ascii) :
  isHex h = true -> (h =? dquote)%char = false /\ (h =? backslash)%char = false.
Proof.
  unfold isHex, between. rewrite !eqb_byteZ.
  change (byteZ "0") with 48. change (byteZ "9") with 57.
  change (byteZ "a") with 97. change (byteZ "f") with 102.
  change (byteZ "A") with 65. change (byteZ "F") with 70.
  change (byteZ dquote) with 34. change (byteZ backslash) with 92.
  intros H. split; apply Z.eqb_neq; intros E; rewrite E in H; discriminate H.
Qed.

Lemma hexValue_hex (h : ascii) : isHex h = true -> 0 <= hexValue h <= 15.
Proof.
  unfold isHex, hexValue, between.
  change (byteZ "0") with 48. change (byteZ "9") with 57.
  change (byteZ "a") with 97. change (byteZ "f") with 102.
  change (byteZ "A") with 65. change (byteZ "F") with 70.
  destruct ((48 <=? byteZ h) && (byteZ h <=? 57)) eqn:E1;
    [apply andb_true_iff in E1; destruct E1 as [A B];
     apply Z.leb_le in A, B; intros _; lia|].
  destruct ((97 <=? byteZ h) && (byteZ h <=? 102)) eqn:E2;
    [apply andb_true_iff in E2; destruct E2 as [A B];
     apply Z.leb_le in A, B; intros _; lia|].
  destruct ((65 <=? byteZ h) && (byteZ h <=? 70)) eqn:E3;
    [apply andb_true_iff in E3; destruct E3 as [A B];
     apply Z.leb_le in A, B; intros _; lia|].
  discriminate.
Qed.

(** What the scanner accepts inside a string literal. *)
Lemma scan_in_string (n : nat) :
  forall (rest : string) (e : bool) (st : list parseState) (s' : scanner),
  (String.length rest < n)%nat ->
  scan (mkScanner StateInString e st) rest = Some s' ->
  (exists body tail, rest = body ++ String dquote tail /\ content body) \/
  (inString (step s') = true /\ endTop s' = e).
Proof.
  induction n as [|n IH]; intros rest e st s' Hlen Hscan; [lia|].
  destruct rest as [|c r]; cbn [scan] in Hscan.
  { injection Hscan as <-. right. split; reflexivity. }
  unfold scan_step in Hscan. cbn [step] in Hscan. unfold stateInString in Hscan.
  cbn [String.length] in Hlen.
  destruct (c =? dquote)%char eqn:Eq.
  { left. exists EmptyString, r. apply Ascii.eqb_eq in Eq. subst c.
    split; [reflexivity | constructor]. }
  destruct (c =? backslash)%char eqn:Eb.
  2:{ destruct (byteZ c <? 32) eqn:E32; [discriminate|]. apply Z.ltb_ge in E32.
      destruct (IH r e st s' ltac:(lia) Hscan) as [(body & tail & -> & Hc) | R];
        [left | right; exact R].
      exists (String c body), tail. split; [reflexivity|]. now constructor. }
  apply Ascii.eqb_eq in Eb. subst c.
  unfold setStep in Hscan. cbn [endTop parseStack] in Hscan.
  destruct r as [|x r]; cbn [scan] in Hscan.
  { injection Hscan as <-. right. split; reflexivity. }
  unfold scan_step in Hscan. cbn [step] in Hscan. unfold stateInStringEsc in Hscan.
  cbn [String.length] in Hlen.
  fold (simpleEscape x) in Hscan.
  destruct (simpleEscape x) eqn:Ex.
  { unfold setStep in Hscan. cbn [endTop parseStack] in Hscan.
    destruct (IH r e st s' ltac:(lia) Hscan) as [(body & tail & -> & Hc) | R];
      [left | right; exact R].
    exists (String backslash (String x body)), tail. split; [reflexivity|].
    now constructor. }
  destruct (x =? "u")%char eqn:Eu; [|discriminate].
  apply Ascii.eqb_eq in Eu. subst x.
  unfold setStep in Hscan. cbn [endTop parseStack] in Hscan.
  (* four hexadecimal digits *)
  destruct r as [|h0 r]; cbn [scan] in Hscan;
    [injection Hscan as <-; right; split; reflexivity|].
  unfold scan_step, stateHex, setStep in Hscan. cbn [step endTop parseStack] in Hscan.
  destruct (isHex h0) eqn:E0; [|discriminate].
  destruct r as [|h1 r]; cbn [scan] in Hscan;
    [injection Hscan as <-; right; split; reflexivity|].
  unfold scan_step, stateHex, setStep in Hscan. cbn [step endTop parseStack] in Hscan.
  destruct (isHex h1) eqn:E1; [|discriminate].
  destruct r as [|h2 r]; cbn [scan] in Hscan;
    [injection Hscan as <-; right; split; reflexivity|].
  unfold scan_step, stateHex, setStep in Hscan. cbn [step endTop parseStack] in Hscan.
  destruct (isHex h2) eqn:E2; [|discriminate].
  destruct r as [|h3 r]; cbn [scan] in Hscan;
    [injection Hscan as <-; right; split; reflexivity|].
  unfold scan_step, stateHex, setStep in Hscan. cbn [step endTop parseStack] in Hscan.
  destruct (isHex h3) eqn:E3; [|discriminate].
  cbn [String.length] in Hlen.
  destruct (IH r e st s' ltac:(lia) Hscan) as [(body & tail & -> & Hc) | R];
    [left | right; exact R].
  exists (String backslash (String "u" (String h0 (String h1 (String h2 (String h3 body)))))),
    tail.
  split; [reflexivity|]. now constructor.
Qed.

Lemma rescanString_content (body tail : string) :
  content body ->
  rescanString (body ++ String dquote tail) = body ++ String dquote EmptyString.
Proof.
  induction 1 as [|c s Hge Hq Hb Hs IH|e s He Hs IH|h0 h1 h2 h3 s H0 H1 H2 H3 Hs IH];
    cbn [append rescanString].
  - reflexivity.
  - now rewrite Hb, Hq, IH.
  - change ((backslash =? backslash)%char) with true. cbv iota. now rewrite IH.
  - change ((backslash =? backslash)%char) with true. cbv iota.
    destruct (hex_not_special h0 H0) as [-> ->].
    destruct (hex_not_special h1 H1) as [-> ->].
    destruct (hex_not_special h2 H2) as [-> ->].
    destruct (hex_not_special h3 H3) as [-> ->].
    now rewrite IH.
Qed.

Lemma unquote_pending (n : nat) (s : string) :
  unquote_loop n s = unquote_loop 0 (drop n s).
Proof.
  revert s. induction n as [|n IH]; intros s; [reflexivity|].
  destruct s as [|c r]; [reflexivity|]. cbn [unquote_loop drop]. apply IH.
Qed.

Lemma content_drop_high (k : nat) (s : string) :
  content s -> highPrefix k s -> content (drop k s).
Proof.
  revert s. induction k as [|k IH]; intros s Hc Hh; [exact Hc|].
  destruct s as [|c r]; [destruct Hh|]. destruct Hh as [Hhigh Hh]. cbn [drop].
  apply IH; [|exact Hh].
  inversion Hc as [|c0 s0 _ _ _ Hr|e s0 _ _|h0 h1 h2 h3 s0 _ _ _ _ _]; subst.
  - exact Hr.
  - change (byteZ backslash) with 92 in Hhigh. lia.
  - change (byteZ backslash) with 92 in Hhigh. lia.
Qed.

Lemma cont_high (lo hi : Z) (c : ascii) : 128 <= lo -> utf8.cont lo hi c = true -> 128 <= byteZ c.
Proof.
  unfold utf8.cont. intros Hlo H. apply andb_true_iff in H. destruct H as [H _].
  apply Z.leb_le in H. lia.
Qed.

(** The bytes of a rune after the first are not ASCII. *)
Lemma DecodeRune_high (c : ascii) (s : string) :
  highPrefix (snd (utf8.DecodeRune (String c s)) - 1) s.
Proof.
  unfold utf8.DecodeRune.
  repeat match goal with
         | |- context [if ?b then (_, _) else _] => destruct b eqn:?
         | |- context [match ?x with EmptyString => _ | String _ _ => _ end] => destruct x
         end; cbn [snd Nat.sub highPrefix]; auto.
  all: repeat match goal with
         | H : _ && _ = true |- _ => apply andb_true_iff in H; destruct H
         end.
  all: repeat split; auto.
  all: match goal with
       | H : utf8.cont ?lo ?hi ?c = true |- _ <= byteZ ?c =>
           apply (cont_high lo hi c); [|exact H]
       end.
  all: repeat match goal with |- context [if ?b then _ else _] => destruct b end; lia.
Qed.

Lemma getu4_inv (s : string) :
  0 <= getu4 s ->
  exists h0 h1 h2 h3 r,
    s = String backslash (String "u" (String h0 (String h1 (String h2 (String h3 r))))).
Proof.
  unfold getu4.
  destruct s as [|c0 [|c1 [|h0 [|h1 [|h2 [|h3 r]]]]]]; try (intros H; lia).
  destruct (c0 =? backslash)%char eqn:E0; cbn [negb orb]; [|intros H; lia].
  destruct (c1 =? "u")%char eqn:E1; cbn [negb]; [|intros H; lia].
  apply Ascii.eqb_eq in E0, E1. subst. intros _. now exists h0, h1, h2, h3, r.
Qed.

Lemma getu4_hex (h0 h1 h2 h3 : ascii) (r : string) :
  isHex h0 = true -> isHex h1 = true -> isHex h2 = true -> isHex h3 = true ->
  0 <= getu4 (String backslash (String "u" (String h0 (String h1 (String h2 (String h3 r)))))).
Proof.
  intros H0 H1 H2 H3. unfold getu4.
  change ((backslash =? backslash)%char) with true. change (("u" =? "u")%char) with true.
  cbn [negb orb].
  pose proof (hexValue_hex h0 H0). pose proof (hexValue_hex h1 H1).
  pose proof (hexValue_hex h2 H2). pose proof (hexValue_hex h3 H3).
  replace ((hexValue h0 <? 0) || (hexValue h1 <? 0) || (hexValue h2 <? 0) ||
           (hexValue h3 <? 0)) with false; [lia|].
  symmetry. repeat (apply orb_false_iff; split); apply Z.ltb_ge; lia.
Qed.

Lemma content_after_unicode (s : string) :
  content s -> 0 <= getu4 s -> content (drop 6 s).
Proof.
  intros Hc Hu. destruct (getu4_inv s Hu) as (h0 & h1 & h2 & h3 & r & ->).
  cbn [drop].
  inversion Hc as [|c0 s0 _ _ Hb _|e s0 He _|g0 g1 g2 g3 s0 _ _ _ _ Hr]; subst.
  - discriminate Hb.
  - discriminate He.
  - exact Hr.
Qed.

Lemma utf16_pair (r1 r2 : Z) :
  negb (utf16.DecodeRune r1 r2 =? utf8.RuneError) = true -> 0 <= r2.
Proof.
  unfold utf16.DecodeRune.
  destruct ((55296 <=? r1) && (r1 <? 56320) && (56320 <=? r2) && (r2 <? 57344)) eqn:E.
  - intros _. repeat (apply andb_true_iff in E; destruct E as [E ?]).
    match goal with H : (56320 <=? r2) = true |- _ => apply Z.leb_le in H; lia end.
  - rewrite Z.eqb_refl. discriminate.
Qed.

(** [unquoteBytes] succeeds on the contents the scanner accepts. *)
Lemma unquote_content (n : nat) :
  forall s, (String.length s < n)%nat -> content s ->
  exists r, unquote_loop 0 s = Some r.
Proof.
  induction n as [|n IH]; intros s Hlen Hc; [lia|].
  assert (forall k b rest, (String.length rest <= String.length s - 1)%nat ->
            (0 < String.length s)%nat ->
            content (drop k rest) ->
            exists r, match unquote_loop k rest with
                      | Some r => Some (b ++ r) | None => None end = Some r) as Hemit.
  { intros k b rest Hk Hpos Hd. rewrite unquote_pending.
    destruct (IH (drop k rest)) as (r & ->); [|exact Hd|eauto].
    pose proof (length_drop k rest). lia. }
  inversion Hc as [|c r Hge Hq Hb Hr|e r He Hr|h0 h1 h2 h3 r H0 H1 H2 H3 Hr]; subst.
  - now exists EmptyString.
  - cbn [unquote_loop]. rewrite Hb, Hq.
    replace (byteZ c <? 32) with false by (symmetry; apply Z.ltb_ge; exact Hge).
    cbn [orb]. cbn [String.length] in *.
    destruct (byteZ c <? utf8.RuneSelf).
    + apply Hemit; [lia | lia | exact Hr].
    + pose proof (DecodeRune_high c r) as Hh.
      destruct (utf8.DecodeRune (String c r)) as [rr size]. cbn [snd] in Hh.
      apply Hemit; [lia | lia |]. now apply content_drop_high.
  - cbn [unquote_loop]. change ((backslash =? backslash)%char) with true. cbv iota.
    cbn [String.length] in *.
    assert (content (drop 1 (String e r))) as Hd by exact Hr.
    unfold simpleEscape in He.
    destruct (e =? dquote)%char; destruct (e =? backslash)%char;
      destruct (e =? "/")%char; destruct (e =? "'")%char; cbn [orb];
      try (apply Hemit; [cbn [String.length]; lia | lia | exact Hd]).
    destruct (e =? "b")%char; [apply Hemit; [cbn [String.length]; lia | lia | exact Hd]|].
    destruct (e =? "f")%char; [apply Hemit; [cbn [String.length]; lia | lia | exact Hd]|].
    destruct (e =? "n")%char; [apply Hemit; [cbn [String.length]; lia | lia | exact Hd]|].
    destruct (e =? "r")%char; [apply Hemit; [cbn [String.length]; lia | lia | exact Hd]|].
    destruct (e =? "t")%char; [apply Hemit; [cbn [String.length]; lia | lia | exact Hd]|].
    discriminate He.
  - cbn [unquote_loop]. change ((backslash =? backslash)%char) with true. cbv iota.
    change (("u" =? dquote)%char || ("u" =? backslash)%char ||
            ("u" =? "/")%char || ("u" =? "'")%char) with false.
    change (("u" =? "b")%char) with false. change (("u" =? "f")%char) with false.
    change (("u" =? "n")%char) with false. change (("u" =? "r")%char) with false.
    change (("u" =? "t")%char) with false. change (("u" =? "u")%char) with true.
    cbv iota.
    pose proof (getu4_hex h0 h1 h2 h3 r H0 H1 H2 H3) as Hu.
    cbn [String.length] in Hemit, Hlen.
    set (s0 := String backslash (String "u" (String h0 (String h1 (String h2 (String h3 r)))))) in *.
    replace (getu4 s0 <? 0) with false by (symmetry; apply Z.ltb_ge; exact Hu).
    assert (content (drop 5 (String "u" (String h0 (String h1 (String h2 (String h3 r)))))))
      as Hd5 by exact Hr.
    destruct (utf16.IsSurrogate (getu4 s0));
      [|apply Hemit; [cbn [String.length]; lia | lia | exact Hd5]].
    change (drop 6 s0) with r.
    destruct (negb (utf16.DecodeRune (getu4 s0) (getu4 r) =? utf8.RuneError)) eqn:Ep;
      [|apply Hemit; [cbn [String.length]; lia | lia | exact Hd5]].
    apply Hemit; [cbn [String.length]; lia | lia |].
    change (drop 11 (String "u" (String h0 (String h1 (String h2 (String h3 r))))))
      with (drop 6 r).
    apply content_after_unicode; [exact Hr | exact (utf16_pair _ _ Ep)].
Qed.

Lemma scan_skipSpace (data : string) : scan reset data = scan reset (skipSpace data).
Proof.
  induction data as [|c r IH]; [reflexivity|].
  cbn [skipSpace]. destruct (isSpace c) eqn:E; [|reflexivity].
  cbn [scan]. unfold scan_step. cbn [step reset]. unfold stateBeginValue.
  rewrite E. exact IH.
Qed.

Lemma eof_in_string (s : scanner) :
  inString (step s) = true -> endTop s = false -> eof s = false.
Proof.
  intros Hin He. unfold eof, scan_step. rewrite He.
  destruct s as [f e st]. cbn [step endTop] in *. subst e.
  destruct f; try discriminate Hin; reflexivity.
Qed.

(** On a checked input the literal the decoder unquotes is well formed:
    [literalStore] does not panic. *)
Lemma Unmarshal_no_panic (data v : string) :
  snd (Unmarshal data v) <> Some phasePanic.
Proof.
  unfold Unmarshal.
  destruct (checkValid data) eqn:Hvalid; cbn [negb]; [|discriminate].
  destruct (skipSpace data) as [|c rest] eqn:Hskip; [discriminate|].
  destruct (c =? "{")%char; [discriminate|].
  destruct (c =? "[")%char; [discriminate|].
  destruct (c =? "n")%char; [discriminate|].
  destruct ((c =? "t")%char || (c =? "f")%char); [discriminate|].
  destruct (c =? dquote)%char eqn:Eq; [|discriminate].
  apply Ascii.eqb_eq in Eq. subst c.
  unfold checkValid in Hvalid. rewrite scan_skipSpace, Hskip in Hvalid.
  cbn [scan] in Hvalid.
  change (scan_step reset dquote) with (Some (mkScanner StateInString false [])) in Hvalid.
  cbv iota beta in Hvalid.
  destruct (scan (mkScanner StateInString false []) rest) as [s'|] eqn:Hscan;
    [|discriminate].
  destruct (scan_in_string (S (String.length rest)) rest false [] s' ltac:(lia) Hscan)
    as [(body & tail & -> & Hc) | [Hin He]].
  - rewrite (rescanString_content body tail Hc). unfold unquoteBytes.
    rewrite last_snoc, init_snoc.
    change ((dquote =? dquote)%char && (dquote =? dquote)%char) with true. cbv iota.
    destruct (unquote_content (S (String.length body)) body ltac:(lia) Hc) as (r & ->).
    discriminate.
  - rewrite (eof_in_string s' Hin He) in Hvalid. discriminate.
Qed.

(** The errors of [Unmarshal] are syntax errors and type errors. *)
Lemma Unmarshal_error_kind (data v : string) (e : error) :
  snd (Unmarshal data v) = Some e -> decodeError e = true.
Proof.
  intros H. pose proof (Unmarshal_no_panic data v) as Hp. rewrite H in Hp.
  destruct e; try reflexivity; [now contradiction Hp |];
    exfalso; revert H; unfold Unmarshal;
    repeat match goal with
           | |- context [if ?b then _ else _] => destruct b
           | |- context [match ?x with Some _ => _ | None => _ end] => destruct x
           | |- context [match ?x with EmptyString => _ | String _ _ => _ end] => destruct x
           end; discriminate.
Qed.

End JsonFacts.

(** ** The [Date] codec *)

Module DateCodec.
Import time json asana Spec TimeFacts JsonFacts.

(** Closed comparisons of integers, by evaluation. *)
Ltac evaluate := repeat split; vm_compute; (reflexivity || discriminate).

Lemma wf_month_day (d : Date) :
  Time_wf d -> 0 <= Month d <= 99 /\ 0 <= Day d <= 99.
Proof.
  intros (Hm & Hd & _). pose proof (daysIn_le_31 _ (Year d) Hm). lia.
Qed.

(** Within the years 0 to 9999 [Format] writes the text YYYY-MM-DD. *)
Lemma Format_YYYY_MM_DD (d : Date) :
  Time_wf d -> 0 <= Year d <= 9999 ->
  Format d dateLayout = YYYY_MM_DD (Year d) (Month d) (Day d).
Proof.
  intros Hwf Hy. destruct (wf_month_day d Hwf) as [Hm Hd].
  rewrite Format_dateLayout, appendInt_4, !appendInt_2 by assumption.
  reflexivity.
Qed.

(** Within the years 0 to 9999 the encoding is the JSON string of the text
    YYYY-MM-DD. *)
Lemma MarshalJSON_in_range (d : Date) :
  Time_wf d -> 0 <= Year d <= 9999 ->
  MarshalJSON d = (jsonString (YYYY_MM_DD (Year d) (Month d) (Day d)), None).
Proof.
  intros Hwf Hy. unfold MarshalJSON. rewrite (Format_YYYY_MM_DD d Hwf Hy).
  apply Marshal_plain, plain_YYYY_MM_DD.
Qed.

(** A successful decode stores what [Parse] returned for the decoded
    string; a failed one stores nothing, and its error is a decode
    error. *)
Lemma UnmarshalJSON_cases (d : Date) (value : string) :
  (exists e, UnmarshalJSON d value = (d, Some e) /\ decodeError e = true) \/
  (exists s t, UnmarshalJSON d value = (t, None) /\
               Unmarshal value EmptyString = (s, None) /\
               Parse dateLayout s = (t, None)).
Proof.
  unfold UnmarshalJSON.
  pose proof (Unmarshal_error_kind value EmptyString) as HU.
  destruct (Unmarshal value EmptyString) as [s [e|]] eqn:EU; cbn [fst snd] in *.
  - left. exists e. auto.
  - destruct (Parse dateLayout s) as [t [e|]] eqn:EP.
    + left. exists e. split; [reflexivity|]. exact (Parse_error_kind s t e EP).
    + right. exists s, t. auto.
Qed.

(** C10.  [UnmarshalJSON] is atomic on failure: whenever it returns an
    error the receiver keeps its value, and the receiver is given a new
    value only when both [json.Unmarshal] and [time.Parse] have succeeded
    (it is then the date [Parse] returned). *)
Theorem UnmarshalJSON_atomic (d d' : Date) (value : string) (r : option error) :
  UnmarshalJSON d value = (d', r) ->
  (r <> None -> d' = d) /\
  (d' <> d ->
   r = None /\
   exists s, Unmarshal value EmptyString = (s, None) /\
             Parse dateLayout s = (d', None)).
Proof.
  intros E.
  destruct (UnmarshalJSON_cases d value) as [(e & E' & _) | (s & t & E' & EU & EP)];
    rewrite E' in E; injection E as <- <-.
  - split; [reflexivity | intros N; now contradiction N].
  - split; [intros N; now contradiction N |].
    intros _. split; [reflexivity|]. exists s. auto.
Qed.

Lemma UnmarshalJSON_atomic_witness :
  UnmarshalJSON (dateOf 2012 3 26) (jsonString "2012-3-26") =
    (dateOf 2012 3 26,
     Some (ParseError "2006-01-02" "2012-3-26" "01" "3-26" msgNone)) /\
  dateOf 2012 3 26 = dateOf 2012 3 26.
Proof.
  split; [reflexivity|].
  apply (UnmarshalJSON_atomic (dateOf 2012 3 26) (dateOf 2012 3 26)
           (jsonString "2012-3-26")
           (Some (ParseError "2006-01-02" "2012-3-26" "01" "3-26" msgNone)));
    [reflexivity | discriminate].
Defined.

(** C9.  [MarshalJSON] is total and never fails: for every [Date], whatever
    its fields, it returns bytes and a nil error. *)
Theorem MarshalJSON_never_fails (d : Date) :
  exists b, MarshalJSON d = (b, None).
Proof.
  unfold MarshalJSON, Marshal. eexists. reflexivity.
Qed.

(** C8, as stated, fails on the first day of the year 10000: the year is
    written with five digits, and the text does not match YYYY-MM-DD. *)
Lemma MarshalJSON_year_10000 :
  Time_wf (dateOf 10000 1 1) /\
  MarshalJSON (dateOf 10000 1 1) = (jsonString "10000-01-01", None) /\
  matchesPattern "10000-01-01" = false.
Proof.
  split; [evaluate | split; reflexivity].
Qed.

(** C8, amended.  For every [Date] whose year lies within 0 to 9999,
    [MarshalJSON] returns the JSON string of the text YYYY-MM-DD of its
    calendar date (four-digit year, zero-padded month and day) and no
    error; the date 2012-03-26 is encoded as "2012-03-26" (the
    witness). *)
Theorem MarshalJSON_YYYY_MM_DD (d : Date) :
  Time_wf d -> 0 <= Year d <= 9999 ->
  MarshalJSON d = (jsonString (YYYY_MM_DD (Year d) (Month d) (Day d)), None) /\
  matchesPattern (YYYY_MM_DD (Year d) (Month d) (Day d)) = true.
Proof.
  intros Hwf Hy. split; [|apply matchesPattern_YYYY_MM_DD].
  now apply MarshalJSON_in_range.
Qed.

Lemma MarshalJSON_2012_03_26 :
  (Time_wf (dateOf 2012 3 26) /\ 0 <= Year (dateOf 2012 3 26) <= 9999) /\
  MarshalJSON (dateOf 2012 3 26) = (jsonString "2012-03-26", None) /\
  matchesPattern "2012-03-26" = true.
Proof.
  split; [split; evaluate|].
  apply (MarshalJSON_YYYY_MM_DD (dateOf 2012 3 26)); evaluate.
Defined.

(** Encoding and decoding a [Date] of the years 0 to 9999 yields its calendar
    date at midnight UTC, whatever the receiver held. *)
Lemma roundTrip_calendar_date (d0 d : Date) :
  Time_wf d -> 0 <= Year d <= 9999 ->
  roundTrip d0 d = (dateOf (Year d) (Month d) (Day d), None).
Proof.
  intros Hwf Hy. unfold roundTrip.
  rewrite (MarshalJSON_in_range d Hwf Hy). cbn [fst].
  unfold UnmarshalJSON.
  rewrite Unmarshal_jsonString by apply plain_YYYY_MM_DD.
  rewrite Parse_YYYY_MM_DD; [reflexivity | assumption |].
  destruct Hwf as (Hm & Hd & _). split; assumption.
Qed.

(** C1, as stated, fails on the valid calendar date 10000-01-01: it is
    encoded as "10000-01-01", which [UnmarshalJSON] refuses. *)
Lemma roundTrip_year_10000 :
  validDate 10000 1 1 /\
  roundTrip zero (dateOf 10000 1 1) =
    (zero, Some (ParseError "2006-01-02" "10000-01-01" "-" "0-01-01" msgNone)) /\
  roundTrip zero (dateOf 10000 1 1) <> (dateOf 10000 1 1, None).
Proof.
  split; [evaluate|].
  split; [reflexivity | discriminate].
Qed.

(** C1, amended.  For every valid calendar date of the years 0 to 9999,
    encoding its [Date] (that day at midnight UTC) with [MarshalJSON] and
    decoding the bytes with [UnmarshalJSON] yields a [Date] equal to the
    original, and no error. *)
Theorem roundTrip_valid_date (y m d : Z) (d0 : Date) :
  0 <= y <= 9999 -> validDate y m d ->
  roundTrip d0 (dateOf y m d) = (dateOf y m d, None).
Proof.
  intros Hy [Hm Hd].
  apply (roundTrip_calendar_date d0 (dateOf y m d)); [|exact Hy].
  unfold Time_wf, dateOf, Date. cbn. lia.
Qed.

Lemma roundTrip_2012_02_29 :
  (0 <= 2012 <= 9999 /\ validDate 2012 2 29) /\
  roundTrip zero (dateOf 2012 2 29) = (dateOf 2012 2 29, None).
Proof.
  split; [split; evaluate|].
  apply (roundTrip_valid_date 2012 2 29 zero); evaluate.
Defined.

(** C2.  [UnmarshalJSON] returns a decode error, and leaves the receiver
    alone, for every input that is not a JSON string and for every input
    whose string does not match the exact pattern YYYY-MM-DD; among them
    the strings "03/26/2012", "2012-3-26" and "2012-03-26T00:00:00" (the
    witness). *)
Theorem UnmarshalJSON_rejects (d : Date) (value : string) :
  isStringValue value = false \/
  matchesPattern (fst (Unmarshal value EmptyString)) = false ->
  exists e, UnmarshalJSON d value = (d, Some e) /\ decodeError e = true.
Proof.
  intros H.
  assert (matchesPattern (fst (Unmarshal value EmptyString)) = false) as Hno.
  { destruct H as [H|H]; [|exact H].
    now rewrite (Unmarshal_not_string value EmptyString H). }
  clear H.
  destruct (UnmarshalJSON_cases d value) as [(e & E & K) | (s & t & _ & EU & EP)].
  - exists e. auto.
  - rewrite EU in Hno. cbn [fst] in Hno.
    destruct (Parse_no_match s Hno) as (e & EP'). congruence.
Qed.

(** The pattern is matched against the string the literal denotes: an
    escaped hyphen is a hyphen. *)
Remark UnmarshalJSON_escaped_hyphen :
  UnmarshalJSON zero (jsonString "2012\u002d03-26") = (dateOf 2012 3 26, None).
Proof. reflexivity. Qed.

Lemma UnmarshalJSON_rejects_examples :
  (matchesPattern (fst (Unmarshal (jsonString "03/26/2012") EmptyString)) = false /\
   exists e, UnmarshalJSON zero (jsonString "03/26/2012") = (zero, Some e) /\
             decodeError e = true) /\
  (matchesPattern (fst (Unmarshal (jsonString "2012-3-26") EmptyString)) = false /\
   exists e, UnmarshalJSON zero (jsonString "2012-3-26") = (zero, Some e) /\
             decodeError e = true) /\
  (matchesPattern (fst (Unmarshal (jsonString "2012-03-26T00:00:00") EmptyString)) = false /\
   exists e, UnmarshalJSON zero (jsonString "2012-03-26T00:00:00") = (zero, Some e) /\
             decodeError e = true) /\
  (isStringValue "20120326" = false /\
   exists e, UnmarshalJSON zero "20120326" = (zero, Some e) /\ decodeError e = true) /\
  (isStringValue "null" = false /\
   exists e, UnmarshalJSON zero "null" = (zero, Some e) /\ decodeError e = true).
Proof.
  split; [split; [reflexivity|]|split; [split; [reflexivity|]|split; [split; [reflexivity|]|
    split; (split; [reflexivity|])]]].
  - apply (UnmarshalJSON_rejects zero (jsonString "03/26/2012")). right. reflexivity.
  - apply (UnmarshalJSON_rejects zero (jsonString "2012-3-26")). right. reflexivity.
  - apply (UnmarshalJSON_rejects zero (jsonString "2012-03-26T00:00:00")).
    right. reflexivity.
  - apply (UnmarshalJSON_rejects zero "20120326"). left. reflexivity.
  - apply (UnmarshalJSON_rejects zero "null"). left. reflexivity.
Defined.

End DateCodec.

(** ** The listing functions *)

Module Listing.
Import util.

Section Runs.

Context {Client NextPage ID : Type} (fmtVerb : ascii -> operand (ID:=ID) -> string).
Context {S : Type} (srv : service (Client:=Client) (NextPage:=NextPage) (ID:=ID) S).

Lemma run_bind {A B : Type} (p : Prog A) (f : A -> Prog B) (st : S) :
  run srv (bind p f) st =
  let '(tr1, a, st1) := run srv p st in
  let '(tr2, b, st2) := run srv (f a) st1 in
  ((tr1 ++ tr2)%list, b, st2).
Proof.
  revert st. induction p as [a | T m k IH | out k IH]; intros st; cbn [bind run].
  - destruct (run srv (f a) st) as [[tr2 b] st2]. reflexivity.
  - destruct (srv T m st) as [res st1]. rewrite IH.
    destruct (run srv (k res) st1) as [[tr1 a] st1'].
    destruct (run srv (f a) st1') as [[tr2 b] st2]. reflexivity.
  - rewrite IH. destruct (run srv k st) as [[tr1 a] st1].
    destruct (run srv (f a) st1) as [[tr2 b] st2]. reflexivity.
Qed.

Lemma run_forRange {T : Type} (xs : list T) (body : T -> Prog unit) (line : T -> string)
    (st : S) :
  (forall x, body x = Output (line x) (Return tt)) ->
  run srv (forRange xs body) st = (map (fun x => Printed (line x)) xs, tt, st).
Proof.
  intros Hbody. induction xs as [|x xs IH]; cbn [forRange map]; [reflexivity|].
  rewrite run_bind, Hbody. cbn [run]. rewrite IH. reflexivity.
Qed.

Lemma Sprintf_workspace (w : Workspace) :
  (if IsOrganization w
   then Printf fmtVerb ("Organization %s %q" ++ newline)
          [anID (Workspace_ID w); aString (Workspace_Name w)]
   else Printf fmtVerb ("Workspace %s %q" ++ newline)
          [anID (Workspace_ID w); aString (Workspace_Name w)]) =
  Output (NextPage:=NextPage) (Client:=Client) (workspaceLine fmtVerb w) (Return tt).
Proof.
  unfold workspaceLine, formatted, Printf. destruct (IsOrganization w); reflexivity.
Qed.

Lemma run_ListWorkspaces (c : Client) (st : S) :
  run srv (ListWorkspaces fmtVerb c) st =
  (listing (Workspaces c) (workspaceLine fmtVerb)
     (objects srv (Workspaces c) st) (failure srv (Workspaces c) st),
   failure srv (Workspaces c) st,
   snd (srv _ (Workspaces c) st)).
Proof.
  unfold ListWorkspaces, call, objects, failure, listing. cbn [bind run].
  destruct (srv _ (Workspaces c) st) as [[[items np] [e|]] st1]; cbn [fst snd run];
    [reflexivity|].
  rewrite run_bind, (run_forRange _ _ (workspaceLine fmtVerb)) by apply Sprintf_workspace.
  cbn [run]. now rewrite app_nil_r.
Qed.


Lemma run_ListProjects (client : Client) (w : Workspace) (st : S) :
  run srv (ListProjects fmtVerb client w) st =
  (listing (Projects w client) (projectLine fmtVerb)
     (objects srv (Projects w client) st) (failure srv (Projects w client) st),
   failure srv (Projects w client) st,
   snd (srv _ (Projects w client) st)).
Proof.
  unfold ListProjects, call, objects, failure, listing. cbn [bind run].
  destruct (srv _ (Projects w client) st) as [[[items np] [e|]] st1]; cbn [fst snd run];
    [reflexivity|].
  rewrite run_bind, (run_forRange _ _ (projectLine fmtVerb)) by reflexivity.
  cbn [run]. now rewrite app_nil_r.
Qed.

Lemma run_ListTasks (client : Client) (p : Project) (st : S) :
  run srv (ListTasks fmtVerb client p) st =
  (listing (Tasks p client) (taskLine fmtVerb)
     (objects srv (Tasks p client) st) (failure srv (Tasks p client) st),
   failure srv (Tasks p client) st,
   snd (srv _ (Tasks p client) st)).
Proof.
  unfold ListTasks, call, objects, failure, listing. cbn [bind run].
  destruct (srv _ (Tasks p client) st) as [[[items np] [e|]] st1]; cbn [fst snd run];
    [reflexivity|].
  rewrite run_bind, (run_forRange _ _ (taskLine fmtVerb)) by reflexivity.
  cbn [run]. now rewrite app_nil_r.
Qed.

Lemma run_ListSections (client : Client) (p : Project) (st : S) :
  run srv (ListSections fmtVerb client p) st =
  (listing (Sections p client) (sectionLine fmtVerb)
     (objects srv (Sections p client) st) (failure srv (Sections p client) st),
   failure srv (Sections p client) st,
   snd (srv _ (Sections p client) st)).
Proof.
  unfold ListSections, call, objects, failure, listing. cbn [bind run].
  destruct (srv _ (Sections p client) st) as [[[items np] [e|]] st1]; cbn [fst snd run];
    [reflexivity|].
  rewrite run_bind, (run_forRange _ _ (sectionLine fmtVerb)) by reflexivity.
  cbn [run]. now rewrite app_nil_r.
Qed.

Lemma stdout_Printed {T : Type} (line : T -> string) (xs : list T) :
  stdout (Client:=Client) (ID:=ID) (map (fun x => Printed (line x)) xs) = map line xs.
Proof. induction xs as [|x xs IH]; cbn [map stdout]; [reflexivity | now rewrite IH]. Qed.

Lemma calls_Printed {T : Type} (line : T -> string) (xs : list T) :
  calls (Client:=Client) (ID:=ID) (map (fun x => Printed (line x)) xs) = 0%nat.
Proof. induction xs as [|x xs IH]; cbn [map calls]; [reflexivity | exact IH]. Qed.

(** What a listing prints: the lines of the objects, or nothing after an
    error. *)
Lemma stdout_listing {T : Type} (m : listCall (Client:=Client) (ID:=ID) T) (line : T -> string)
    (items : list T) (err : option error) :
  stdout (listing m line items err) =
  match err with Some _ => [] | None => map line items end.
Proof.
  unfold listing. cbn [stdout]. destruct err; [reflexivity | apply stdout_Printed].
Qed.

Lemma calls_listing {T : Type} (m : listCall (Client:=Client) (ID:=ID) T) (line : T -> string)
    (items : list T) (err : option error) :
  calls (listing m line items err) = 1%nat.
Proof.
  unfold listing. cbn [calls]. destruct err; [reflexivity | now rewrite calls_Printed].
Qed.

(** The four functions at once: each lists one page. *)
Lemma lists_one_page (client : Client) (w : Workspace) (p : Project) (st : S) :
  listsOnePage srv (Workspaces client) (workspaceLine fmtVerb)
    (ListWorkspaces fmtVerb client) st /\
  listsOnePage srv (Projects w client) (projectLine fmtVerb)
    (ListProjects fmtVerb client w) st /\
  listsOnePage srv (Tasks p client) (taskLine fmtVerb)
    (ListTasks fmtVerb client p) st /\
  listsOnePage srv (Sections p client) (sectionLine fmtVerb)
    (ListSections fmtVerb client p) st.
Proof.
  unfold listsOnePage.
  rewrite run_ListWorkspaces, run_ListProjects, run_ListTasks, run_ListSections.
  rewrite !calls_listing. repeat split.
Qed.

(** What each function prints and returns, from what the service
    answered. *)
Lemma printed_ListWorkspaces (c : Client) (st : S) :
  printed srv (ListWorkspaces fmtVerb c) st =
    match failure srv (Workspaces c) st with
    | Some _ => []
    | None => map (workspaceLine fmtVerb) (objects srv (Workspaces c) st)
    end /\
  result srv (ListWorkspaces fmtVerb c) st = failure srv (Workspaces c) st.
Proof.
  unfold printed, result. rewrite run_ListWorkspaces. cbn [fst snd].
  now rewrite stdout_listing.
Qed.

Lemma printed_ListProjects (client : Client) (w : Workspace) (st : S) :
  printed srv (ListProjects fmtVerb client w) st =
    match failure srv (Projects w client) st with
    | Some _ => []
    | None => map (projectLine fmtVerb) (objects srv (Projects w client) st)
    end /\
  result srv (ListProjects fmtVerb client w) st = failure srv (Projects w client) st.
Proof.
  unfold printed, result. rewrite run_ListProjects. cbn [fst snd].
  now rewrite stdout_listing.
Qed.

Lemma printed_ListTasks (client : Client) (p : Project) (st : S) :
  printed srv (ListTasks fmtVerb client p) st =
    match failure srv (Tasks p client) st with
    | Some _ => []
    | None => map (taskLine fmtVerb) (objects srv (Tasks p client) st)
    end /\
  result srv (ListTasks fmtVerb client p) st = failure srv (Tasks p client) st.
Proof.
  unfold printed, result. rewrite run_ListTasks. cbn [fst snd].
  now rewrite stdout_listing.
Qed.

Lemma printed_ListSections (client : Client) (p : Project) (st : S) :
  printed srv (ListSections fmtVerb client p) st =
    match failure srv (Sections p client) st with
    | Some _ => []
    | None => map (sectionLine fmtVerb) (objects srv (Sections p client) st)
    end /\
  result srv (ListSections fmtVerb client p) st = failure srv (Sections p client) st.
Proof.
  unfold printed, result. rewrite run_ListSections. cbn [fst snd].
  now rewrite stdout_listing.
Qed.

End Runs.

Section Behaviour.

Context {Client NextPage ID : Type} (fmtVerb : ascii -> operand (ID:=ID) -> string).
Context {S : Type} (srv : service (Client:=Client) (NextPage:=NextPage) (ID:=ID) S).

(** C3.  When the client's [Workspaces] call returns a sequence of
    workspaces and no error, [ListWorkspaces] prints exactly one line per
    workspace, in the order of the sequence, labelled "Organization" when
    [IsOrganization] is true and "Workspace" otherwise, and returns no
    error. *)
Theorem ListWorkspaces_prints (c : Client) (st : S) (workspaces : list Workspace) :
  objects srv (Workspaces c) st = workspaces ->
  failure srv (Workspaces c) st = None ->
  printed srv (ListWorkspaces fmtVerb c) st =
    map (fun w => formatted fmtVerb
                    (if IsOrganization w then "Organization" else "Workspace")
                    (Workspace_ID w) (Workspace_Name w)) workspaces /\
  List.length (printed srv (ListWorkspaces fmtVerb c) st) = List.length workspaces /\
  result srv (ListWorkspaces fmtVerb c) st = None.
Proof.
  intros Hobj Hok. destruct (printed_ListWorkspaces fmtVerb srv c st) as [Hp Hr].
  rewrite Hp, Hr, Hok, Hobj. repeat split. apply length_map.
Qed.

(** C4.  For each of the four listing functions: if its list call returns
    an error, the function returns that error, unchanged, and prints
    nothing. *)
Theorem listing_error_propagates
    (client : Client) (w : Workspace) (p : Project) (st : S) (e : error) :
  (failure srv (Workspaces client) st = Some e ->
   printed srv (ListWorkspaces fmtVerb client) st = [] /\
   result srv (ListWorkspaces fmtVerb client) st = Some e) /\
  (failure srv (Projects w client) st = Some e ->
   printed srv (ListProjects fmtVerb client w) st = [] /\
   result srv (ListProjects fmtVerb client w) st = Some e) /\
  (failure srv (Tasks p client) st = Some e ->
   printed srv (ListTasks fmtVerb client p) st = [] /\
   result srv (ListTasks fmtVerb client p) st = Some e) /\
  (failure srv (Sections p client) st = Some e ->
   printed srv (ListSections fmtVerb client p) st = [] /\
   result srv (ListSections fmtVerb client p) st = Some e).
Proof.
  destruct (printed_ListWorkspaces fmtVerb srv client st) as [Hp1 Hr1].
  destruct (printed_ListProjects fmtVerb srv client w st) as [Hp2 Hr2].
  destruct (printed_ListTasks fmtVerb srv client p st) as [Hp3 Hr3].
  destruct (printed_ListSections fmtVerb srv client p st) as [Hp4 Hr4].
  repeat split; try congruence.
  - rewrite Hp1, H. reflexivity.
  - rewrite Hp2, H. reflexivity.
  - rewrite Hp3, H. reflexivity.
  - rewrite Hp4, H. reflexivity.
Qed.

(** C5.  For each of the four listing functions ([ListTasks] among them):
    if its list call returns an empty sequence and no error, the function
    prints no line and returns no error. *)
Theorem listing_nothing
    (client : Client) (w : Workspace) (p : Project) (st : S) :
  (objects srv (Workspaces client) st = [] ->
   failure srv (Workspaces client) st = None ->
   printed srv (ListWorkspaces fmtVerb client) st = [] /\
   result srv (ListWorkspaces fmtVerb client) st = None) /\
  (objects srv (Projects w client) st = [] ->
   failure srv (Projects w client) st = None ->
   printed srv (ListProjects fmtVerb client w) st = [] /\
   result srv (ListProjects fmtVerb client w) st = None) /\
  (objects srv (Tasks p client) st = [] ->
   failure srv (Tasks p client) st = None ->
   printed srv (ListTasks fmtVerb client p) st = [] /\
   result srv (ListTasks fmtVerb client p) st = None) /\
  (objects srv (Sections p client) st = [] ->
   failure srv (Sections p client) st = None ->
   printed srv (ListSections fmtVerb client p) st = [] /\
   result srv (ListSections fmtVerb client p) st = None).
Proof.
  destruct (printed_ListWorkspaces fmtVerb srv client st) as [Hp1 Hr1].
  destruct (printed_ListProjects fmtVerb srv client w st) as [Hp2 Hr2].
  destruct (printed_ListTasks fmtVerb srv client p st) as [Hp3 Hr3].
  destruct (printed_ListSections fmtVerb srv client p st) as [Hp4 Hr4].
  repeat split; try congruence.
  - rewrite Hp1, H0, H. reflexivity.
  - rewrite Hp2, H0, H. reflexivity.
  - rewrite Hp3, H0, H. reflexivity.
  - rewrite Hp4, H0, H. reflexivity.
Qed.

(** A run does not depend on the continuation tokens of the service. *)
Lemma run_withToken (np : option NextPage)
    (client : Client) (w : Workspace) (p : Project) (st : S) :
  run (withToken np srv) (ListWorkspaces fmtVerb client) st =
    run srv (ListWorkspaces fmtVerb client) st /\
  run (withToken np srv) (ListProjects fmtVerb client w) st =
    run srv (ListProjects fmtVerb client w) st /\
  run (withToken np srv) (ListTasks fmtVerb client p) st =
    run srv (ListTasks fmtVerb client p) st /\
  run (withToken np srv) (ListSections fmtVerb client p) st =
    run srv (ListSections fmtVerb client p) st.
Proof.
  rewrite (run_ListWorkspaces fmtVerb (withToken np srv)), (run_ListWorkspaces fmtVerb srv).
  rewrite (run_ListProjects fmtVerb (withToken np srv)), (run_ListProjects fmtVerb srv).
  rewrite (run_ListTasks fmtVerb (withToken np srv)), (run_ListTasks fmtVerb srv).
  rewrite (run_ListSections fmtVerb (withToken np srv)), (run_ListSections fmtVerb srv).
  repeat split.
Qed.

(** C6.  Each of the four listing functions makes exactly one list call,
    prints the objects of that one answer only, and discards the
    continuation token: the service is left in the state the single call
    put it in, so no further page is asked for, and the run is the same
    whatever token the service returns. *)
Theorem listing_first_page_only
    (client : Client) (w : Workspace) (p : Project) (st : S) (np : option NextPage) :
  (listsOnePage srv (Workspaces client) (workspaceLine fmtVerb)
     (ListWorkspaces fmtVerb client) st /\
   run (withToken np srv) (ListWorkspaces fmtVerb client) st =
     run srv (ListWorkspaces fmtVerb client) st) /\
  (listsOnePage srv (Projects w client) (projectLine fmtVerb)
     (ListProjects fmtVerb client w) st /\
   run (withToken np srv) (ListProjects fmtVerb client w) st =
     run srv (ListProjects fmtVerb client w) st) /\
  (listsOnePage srv (Tasks p client) (taskLine fmtVerb)
     (ListTasks fmtVerb client p) st /\
   run (withToken np srv) (ListTasks fmtVerb client p) st =
     run srv (ListTasks fmtVerb client p) st) /\
  (listsOnePage srv (Sections p client) (sectionLine fmtVerb)
     (ListSections fmtVerb client p) st /\
   run (withToken np srv) (ListSections fmtVerb client p) st =
     run srv (ListSections fmtVerb client p) st).
Proof.
  destruct (lists_one_page fmtVerb srv client w p st) as (L1 & L2 & L3 & L4).
  destruct (run_withToken np client w p st) as (T1 & T2 & T3 & T4).
  repeat split; assumption.
Qed.

(** The lines of the four functions, as their format strings give them.
    Those of [ListWorkspaces], [ListTasks] and [ListSections] have the
    format [<TypeLabel> <ID> <Quoted Name>]: the type label, a space, the
    identifier, a space, the quoted name and the end of the line.  Those
    of [ListProjects] have a colon after the identifier. *)
Lemma listing_line_formats
    (client : Client) (w : Workspace) (p : Project) (st : S) :
  (failure srv (Workspaces client) st = None ->
   printed srv (ListWorkspaces fmtVerb client) st =
   map (fun x => formatted fmtVerb
                   (if IsOrganization x then "Organization" else "Workspace")
                   (Workspace_ID x) (Workspace_Name x))
       (objects srv (Workspaces client) st)) /\
  (failure srv (Projects w client) st = None ->
   printed srv (ListProjects fmtVerb client w) st =
   map (fun x => withColon fmtVerb "Project" (Project_ID x) (Project_Name x))
       (objects srv (Projects w client) st)) /\
  (failure srv (Tasks p client) st = None ->
   printed srv (ListTasks fmtVerb client p) st =
   map (fun x => formatted fmtVerb "Task" (Task_ID x) (Task_Name x))
       (objects srv (Tasks p client) st)) /\
  (failure srv (Sections p client) st = None ->
   printed srv (ListSections fmtVerb client p) st =
   map (fun x => formatted fmtVerb "Section" (Section_ID x) (Section_Name x))
       (objects srv (Sections p client) st)).
Proof.
  destruct (printed_ListWorkspaces fmtVerb srv client st) as [Hp1 _].
  destruct (printed_ListProjects fmtVerb srv client w st) as [Hp2 _].
  destruct (printed_ListTasks fmtVerb srv client p st) as [Hp3 _].
  destruct (printed_ListSections fmtVerb srv client p st) as [Hp4 _].
  repeat split; intros H.
  - rewrite Hp1, H. reflexivity.
  - rewrite Hp2, H. reflexivity.
  - rewrite Hp3, H. reflexivity.
  - rewrite Hp4, H. reflexivity.
Qed.

End Behaviour.

(** *** Runs against the example service *)

Lemma ListWorkspaces_prints_demo :
  (objects demoService (Workspaces tt) 0%nat =
     [acme; mkWorkspace "2" "Home" false] /\
   failure demoService (Workspaces tt) 0%nat = None) /\
  printed demoService (ListWorkspaces plainVerb tt) 0%nat =
    [formatted plainVerb "Organization" "1" "Acme";
     formatted plainVerb "Workspace" "2" "Home"] /\
  List.length (printed demoService (ListWorkspaces plainVerb tt) 0%nat) = 2%nat /\
  result demoService (ListWorkspaces plainVerb tt) 0%nat = None.
Proof.
  split; [split; reflexivity|].
  apply (ListWorkspaces_prints plainVerb demoService tt 0%nat
           [acme; mkWorkspace "2" "Home" false]); reflexivity.
Defined.

Lemma listing_error_propagates_demo :
  failure demoService (Sections launch tt) 0%nat = Some (errorString "forbidden") /\
  printed demoService (ListSections plainVerb tt launch) 0%nat = [] /\
  result demoService (ListSections plainVerb tt launch) 0%nat =
    Some (errorString "forbidden").
Proof.
  split; [reflexivity|].
  apply (proj2 (proj2 (proj2
    (listing_error_propagates plainVerb demoService tt acme launch 0%nat
       (errorString "forbidden"))))).
  reflexivity.
Defined.

Lemma listing_nothing_demo :
  (objects demoService (Tasks launch tt) 0%nat = [] /\
   failure demoService (Tasks launch tt) 0%nat = None) /\
  printed demoService (ListTasks plainVerb tt launch) 0%nat = [] /\
  result demoService (ListTasks plainVerb tt launch) 0%nat = None.
Proof.
  split; [split; reflexivity|].
  apply (proj1 (proj2 (proj2
    (listing_nothing plainVerb demoService tt acme launch 0%nat)))); reflexivity.
Defined.

(** C7 on [ListProjects].  Every printed line is to have the format
    [<TypeLabel> <ID> <Quoted Name>], with no other characters, and the
    lines of the three other functions have it ([listing_line_formats]).
    [ListProjects], listing the one project with identifier 7 and name
    "Launch", prints a line with a colon after the identifier: it is not
    the line of that format for this project. *)
Lemma ListProjects_prints_colon :
  objects demoService (Projects acme tt) 0%nat = [launch] /\
  printed demoService (ListProjects plainVerb tt acme) 0%nat =
    ["Project 7: " ++ String dquote ("Launch" ++ String dquote newline)] /\
  formatted plainVerb "Project" "7" "Launch" =
    "Project 7 " ++ String dquote ("Launch" ++ String dquote newline) /\
  printed demoService (ListProjects plainVerb tt acme) 0%nat <>
    map (fun x => formatted plainVerb "Project" (Project_ID x) (Project_Name x))
        (objects demoService (Projects acme tt) 0%nat).
Proof.
  repeat split; try reflexivity. vm_compute. discriminate.
Qed.

End Listing.

(** ** The [Date] codec: what it accepts, and what a round trip keeps *)

Module DateCodecMore.
Import Decimal DecimalFacts DecimalPos DecimalN.
Import StringFacts time json asana Spec TimeFacts JsonFacts DateCodec.
Import util.

Lemma allBytes_append (p : ascii -> bool) (a b : string) :
  allBytes p (a ++ b) = allBytes p a && allBytes p b.
Proof.
  induction a as [|c a IH]; cbn [append allBytes]; [reflexivity|].
  now rewrite IH, andb_assoc.
Qed.

Lemma plain_digit_range (k : Z) : 0 <= k <= 9 -> htmlSafeSet (digit k) = true.
Proof.
  intros H. rewrite <- (Z.mod_small k 10) by lia. apply plain_digit.
Qed.

Lemma plain_string_of_uint (d : uint) :
  allBytes htmlSafeSet (NilEmpty.string_of_uint d) = true.
Proof. induction d; cbn [NilEmpty.string_of_uint allBytes]; auto. Qed.

Lemma plain_decimal (u : Z) : allBytes htmlSafeSet (decimal u) = true.
Proof.
  unfold decimal, NilZero.string_of_uint.
  destruct (N.to_uint (Z.to_N u)); try apply plain_string_of_uint. reflexivity.
Qed.

Lemma plain_replicate (n : nat) : allBytes htmlSafeSet (replicate n "0") = true.
Proof. induction n as [|n IH]; cbn [replicate allBytes]; auto. Qed.

Lemma plain_appendInt (x width : Z) : allBytes htmlSafeSet (appendInt x width) = true.
Proof.
  unfold appendInt.
  assert (allBytes htmlSafeSet (if x <? 0 then "-" else EmptyString) = true) as Hsign
    by (destruct (x <? 0); reflexivity).
  pose proof (Z.abs_nonneg x) as Hu.
  destruct ((width =? 2) && (Z.abs x <? 100)) eqn:E2.
  { apply andb_true_iff in E2. destruct E2 as [_ E2]. apply Z.ltb_lt in E2.
    rewrite allBytes_append, Hsign. cbn [allBytes andb].
    rewrite plain_digit, plain_digit_range; [reflexivity|].
    assert (0 <= Z.abs x / 10) by (apply Z.div_pos; lia).
    assert (Z.abs x / 10 < 10) by (apply Z.div_lt_upper_bound; lia). lia. }
  destruct ((width =? 4) && (Z.abs x <? 10000)) eqn:E4.
  { apply andb_true_iff in E4. destruct E4 as [_ E4]. apply Z.ltb_lt in E4.
    rewrite allBytes_append, Hsign. cbn [allBytes andb].
    assert (0 <= Z.abs x / 100 / 10 <= 9) as H1.
    { assert (0 <= Z.abs x / 100) by (apply Z.div_pos; lia).
      assert (Z.abs x / 100 < 100) by (apply Z.div_lt_upper_bound; lia).
      assert (0 <= Z.abs x / 100 / 10) by (apply Z.div_pos; lia).
      assert (Z.abs x / 100 / 10 < 10) by (apply Z.div_lt_upper_bound; lia). lia. }
    assert (0 <= Z.abs x mod 100 / 10 <= 9) as H2.
    { pose proof (Z.mod_pos_bound (Z.abs x) 100 ltac:(lia)).
      assert (0 <= Z.abs x mod 100 / 10) by (apply Z.div_pos; lia).
      assert (Z.abs x mod 100 / 10 < 10) by (apply Z.div_lt_upper_bound; lia). lia. }
    now rewrite !plain_digit, (plain_digit_range _ H1), (plain_digit_range _ H2). }
  rewrite !allBytes_append, Hsign, plain_replicate, plain_decimal. reflexivity.
Qed.

Lemma plain_Format (d : Date) : allBytes htmlSafeSet (Format d dateLayout) = true.
Proof.
  rewrite Format_dateLayout, !allBytes_append, !plain_appendInt. reflexivity.
Qed.


Lemma length_string_of_uint (d : uint) :
  String.length (NilEmpty.string_of_uint d) = nb_digits d.
Proof. induction d; cbn [NilEmpty.string_of_uint String.length nb_digits]; auto. Qed.

Lemma of_lu_bound (e : uint) :
  (DecimalPos.Unsigned.of_lu e < 10 ^ N.of_nat (nb_digits e))%N.
Proof.
  induction e; cbn [DecimalPos.Unsigned.of_lu nb_digits];
    rewrite ?Nat2N.inj_succ, ?N.pow_succ_r'; [cbn|..]; lia.
Qed.

(** A number of five digits or more is written with five digits or more. *)
Lemma decimal_length (u : Z) : 10000 <= u -> (5 <= String.length (decimal u))%nat.
Proof.
  intros Hu. unfold decimal.
  set (n := Z.to_N u). assert (10000 <= n)%N as Hn by (unfold n; lia).
  pose proof (DecimalN.Unsigned.of_to n) as Hof.
  unfold N.of_uint in Hof. rewrite DecimalPos.Unsigned.of_uint_alt in Hof.
  pose proof (of_lu_bound (rev (N.to_uint n))) as Hb.
  rewrite Hof, nb_digits_rev in Hb.
  assert (5 <= nb_digits (N.to_uint n))%nat as H5.
  { destruct (Nat.le_gt_cases 5 (nb_digits (N.to_uint n))) as [H|H]; [exact H|].
    exfalso.
    assert (10 ^ N.of_nat (nb_digits (N.to_uint n)) <= 10 ^ 4)%N
      by (apply N.pow_le_mono_r; lia).
    change (10 ^ 4)%N with 10000%N in *. lia. }
  unfold NilZero.string_of_uint.
  destruct (N.to_uint n); try (rewrite length_string_of_uint; exact H5).
  cbn in H5. lia.
Qed.

Lemma appendInt_large (x : Z) : 10000 <= x -> appendInt x 4 = decimal x.
Proof.
  intros Hx. unfold appendInt.
  replace (x <? 0) with false by (symmetry; apply Z.ltb_ge; lia).
  rewrite Z.abs_eq by lia.
  replace (x <? 10000) with false by (symmetry; apply Z.ltb_ge; lia).
  cbn [Z.eqb Pos.eqb andb append].
  pose proof (decimal_length x Hx) as Hl.
  replace (Z.to_nat (4 - len (decimal x))) with 0%nat by (unfold len; lia).
  reflexivity.
Qed.

Lemma appendInt_negative (x width : Z) :
  x < 0 -> exists r, appendInt x width = String "-" r.
Proof.
  intros Hx. unfold appendInt.
  replace (x <? 0) with true by (symmetry; apply Z.ltb_lt; lia).
  destruct (_ && _); [eexists; reflexivity|].
  destruct (_ && _); eexists; reflexivity.
Qed.

Lemma length_YYYY_MM_DD (y m d : Z) : String.length (YYYY_MM_DD y m d) = 10%nat.
Proof. reflexivity. Qed.

(** Outside the years 0 to 9999 [Parse] refuses what [Format] wrote. *)
Lemma Parse_Format_outside (d : Date) :
  Time_wf d -> Year d < 0 \/ 9999 < Year d ->
  exists e, Parse dateLayout (Format d dateLayout) = (zero, Some e) /\ decodeError e = true.
Proof.
  intros Hwf Hy.
  destruct (Parse dateLayout (Format d dateLayout)) as [t [e|]] eqn:EP.
  - pose proof (Parse_error_kind _ _ _ EP) as K.
    exists e. split; [|exact K]. f_equal.
    revert EP. unfold Parse.
    destruct (parse_loop _ _ _ _ _) as [[st|e']|]; [|congruence|congruence].
    cbv zeta. destruct (_ || _); congruence.
  - exfalso.
    destruct (Parse_ok_inv _ _ EP) as (y & m & dd & _ & _ & E & _).
    rewrite Format_dateLayout in E.
    destruct Hy as [Hneg|Hbig].
    + destruct (appendInt_negative (Year d) 4 Hneg) as (r & Er). rewrite Er in E.
      unfold YYYY_MM_DD, fourDigits in E. cbn [append] in E. injection E as E _.
      pose proof (between_digit (y / 1000 mod 10) (mod10_range _)) as B.
      rewrite <- E in B. discriminate B.
    + destruct (wf_month_day d Hwf) as [Hm Hd].
      rewrite appendInt_large, !appendInt_2 in E by lia.
      apply (f_equal String.length) in E.
      rewrite length_YYYY_MM_DD, !length_append in E. cbn [String.length] in E.
      pose proof (decimal_length (Year d) ltac:(lia)). unfold twoDigits in E.
      cbn [String.length] in E. lia.
Qed.


(** Every [Date] is encoded as its formatted text between two quotes. *)
Lemma MarshalJSON_Format (d : Date) :
  MarshalJSON d = (jsonString (Format d dateLayout), None).
Proof. unfold MarshalJSON. apply Marshal_plain, plain_Format. Qed.

(** X1.  For every [Date], whatever its year, the bytes [MarshalJSON] returns
    are the formatted date between two double quotes, without any escape
    sequence, and they are a JSON text that [json.Unmarshal] decodes back
    to the formatted date. *)
Theorem MarshalJSON_needs_no_escape (d : Date) (v : string) :
  MarshalJSON d = (jsonString (Format d dateLayout), None) /\
  checkValid (fst (MarshalJSON d)) = true /\
  Unmarshal (fst (MarshalJSON d)) v = (Format d dateLayout, None).
Proof.
  rewrite MarshalJSON_Format. cbn [fst]. split; [reflexivity|].
  split; [apply checkValid_jsonString | apply Unmarshal_jsonString]; apply plain_Format.
Qed.

(** What [UnmarshalJSON] does once the JSON text has been decoded to [s]. *)
Lemma UnmarshalJSON_decoded (d : Date) (value s : string) :
  Unmarshal value EmptyString = (s, None) ->
  UnmarshalJSON d value =
  match Parse dateLayout s with
  | (_, Some err) => (d, Some err)
  | (t, None) => (t, None)
  end.
Proof. intros E. unfold UnmarshalJSON. now rewrite E. Qed.

(** X2.  [UnmarshalJSON] succeeds on exactly the JSON strings that denote
    the text YYYY-MM-DD of a valid calendar date of the years 0 to 9999,
    and the receiver then holds that day at 00:00:00 UTC, whatever it held
    before. *)
Theorem UnmarshalJSON_accepts_exactly (d t : Date) (value : string) :
  UnmarshalJSON d value = (t, None) <->
  exists y m dd,
    0 <= y <= 9999 /\ validDate y m dd /\
    Unmarshal value EmptyString = (YYYY_MM_DD y m dd, None) /\
    t = dateOf y m dd.
Proof.
  split.
  - intros E.
    destruct (UnmarshalJSON_cases d value) as [(e & E' & _) | (s & t' & E' & EU & EP)];
      rewrite E' in E; [discriminate|]. injection E as <-.
    destruct (Parse_ok_inv s t' EP) as (y & m & dd & Hy & Hv & -> & ->).
    exists y, m, dd. auto.
  - intros (y & m & dd & Hy & Hv & EU & ->).
    rewrite (UnmarshalJSON_decoded d value _ EU).
    now rewrite (Parse_YYYY_MM_DD y m dd Hy Hv).
Qed.

Lemma UnmarshalJSON_accepts_leap_day :
  (exists y m dd,
     0 <= y <= 9999 /\ validDate y m dd /\
     Unmarshal (jsonString "2012-02-29") EmptyString = (YYYY_MM_DD y m dd, None) /\
     dateOf 2012 2 29 = dateOf y m dd) /\
  UnmarshalJSON zero (jsonString "2012-02-29") = (dateOf 2012 2 29, None).
Proof.
  assert (exists y m dd,
     0 <= y <= 9999 /\ validDate y m dd /\
     Unmarshal (jsonString "2012-02-29") EmptyString = (YYYY_MM_DD y m dd, None) /\
     dateOf 2012 2 29 = dateOf y m dd) as H.
  { exists 2012, 2, 29. split; [evaluate|]. split; [evaluate|]. split; reflexivity. }
  split; [exact H|].
  exact (proj2 (UnmarshalJSON_accepts_exactly zero (dateOf 2012 2 29)
                  (jsonString "2012-02-29")) H).
Defined.

(** X3.  Decoding and then encoding: when [UnmarshalJSON] succeeds,
    [MarshalJSON] of the receiver returns the JSON string of the text the
    input denoted, in its plain form; white space around the input and
    escapes inside it are not reproduced. *)
Theorem MarshalJSON_after_UnmarshalJSON (d t : Date) (value : string) :
  UnmarshalJSON d value = (t, None) ->
  exists s, Unmarshal value EmptyString = (s, None) /\
            MarshalJSON t = (jsonString s, None).
Proof.
  intros E.
  destruct (UnmarshalJSON_cases d value) as [(e & E' & _) | (s & t' & E' & EU & EP)];
    rewrite E' in E; [discriminate|]. injection E as <-.
  destruct (Parse_ok_inv s t' EP) as (y & m & dd & Hy & [Hm Hd] & -> & ->).
  exists (YYYY_MM_DD y m dd). split; [exact EU|].
  apply (MarshalJSON_in_range (dateOf y m dd)); [|exact Hy].
  unfold Time_wf, dateOf, Date. cbn. lia.
Qed.

Lemma MarshalJSON_after_UnmarshalJSON_escaped :
  UnmarshalJSON zero (" " ++ jsonString "2012\u002d03-26") = (dateOf 2012 3 26, None) /\
  exists s, Unmarshal (" " ++ jsonString "2012\u002d03-26") EmptyString = (s, None) /\
            MarshalJSON (dateOf 2012 3 26) = (jsonString s, None).
Proof.
  split; [reflexivity|].
  apply (MarshalJSON_after_UnmarshalJSON zero (dateOf 2012 3 26)
           (" " ++ jsonString "2012\u002d03-26")).
  reflexivity.
Defined.

(** X4.  Encoding and decoding keeps the calendar day and nothing else: for
    a [Date] of the years 0 to 9999 the round trip yields its day at
    00:00:00 UTC, a second round trip changes nothing more, and the result
    is the original exactly when the original was at 00:00:00 UTC. *)
Theorem roundTrip_keeps_the_day_only (d0 d : Date) :
  Time_wf d -> 0 <= Year d <= 9999 ->
  roundTrip d0 d = (dateOf (Year d) (Month d) (Day d), None) /\
  roundTrip d0 (dateOf (Year d) (Month d) (Day d)) =
    (dateOf (Year d) (Month d) (Day d), None) /\
  (dateOf (Year d) (Month d) (Day d) = d <-> atMidnightUTC d).
Proof.
  intros Hwf Hy. split; [now apply roundTrip_calendar_date|]. split.
  - apply (roundTrip_calendar_date d0 (dateOf (Year d) (Month d) (Day d))); [|exact Hy].
    destruct Hwf as (Hm & Hd & _). unfold Time_wf, dateOf, Date. cbn. lia.
  - unfold atMidnightUTC, dateOf, Date. destruct d as [y m dd h mi s ns l]. cbn.
    split.
    + intros E. injection E as <- <- <- <- <-. auto.
    + intros (-> & -> & -> & -> & ->). reflexivity.
Qed.

Lemma roundTrip_drops_the_afternoon :
  (Time_wf (mkTime 2012 3 26 15 4 5 0 (FixedZone "CET" 3600)) /\
   0 <= Year (mkTime 2012 3 26 15 4 5 0 (FixedZone "CET" 3600)) <= 9999) /\
  roundTrip zero (mkTime 2012 3 26 15 4 5 0 (FixedZone "CET" 3600)) =
    (dateOf 2012 3 26, None).
Proof.
  split; [split; evaluate|].
  apply (roundTrip_keeps_the_day_only zero (mkTime 2012 3 26 15 4 5 0 (FixedZone "CET" 3600)));
    evaluate.
Defined.

(** X5.  Within the years 0 to 9999 two [Date]s are encoded to the same
    bytes exactly when they fall on the same calendar day. *)
Theorem MarshalJSON_same_bytes_same_day (d1 d2 : Date) :
  Time_wf d1 -> Time_wf d2 -> 0 <= Year d1 <= 9999 -> 0 <= Year d2 <= 9999 ->
  (MarshalJSON d1 = MarshalJSON d2 <->
   Year d1 = Year d2 /\ Month d1 = Month d2 /\ Day d1 = Day d2).
Proof.
  intros W1 W2 Y1 Y2. split.
  - intros E.
    pose proof (roundTrip_calendar_date zero d1 W1 Y1) as R1.
    pose proof (roundTrip_calendar_date zero d2 W2 Y2) as R2.
    unfold roundTrip in R1, R2. rewrite E, R2 in R1.
    unfold dateOf, Date in R1. injection R1 as -> -> ->. auto.
  - intros (Ey & Em & Ed).
    rewrite (MarshalJSON_in_range d1 W1 Y1), (MarshalJSON_in_range d2 W2 Y2).
    now rewrite Ey, Em, Ed.
Qed.

Lemma MarshalJSON_same_bytes_same_day_example :
  (Time_wf (mkTime 2012 3 26 15 4 5 0 Local) /\ Time_wf (dateOf 2012 3 26) /\
   0 <= Year (mkTime 2012 3 26 15 4 5 0 Local) <= 9999 /\
   0 <= Year (dateOf 2012 3 26) <= 9999) /\
  (Year (mkTime 2012 3 26 15 4 5 0 Local) = Year (dateOf 2012 3 26) /\
   Month (mkTime 2012 3 26 15 4 5 0 Local) = Month (dateOf 2012 3 26) /\
   Day (mkTime 2012 3 26 15 4 5 0 Local) = Day (dateOf 2012 3 26)) /\
  MarshalJSON (mkTime 2012 3 26 15 4 5 0 Local) = MarshalJSON (dateOf 2012 3 26).
Proof.
  split; [repeat split; evaluate|]. split; [repeat split|].
  apply (proj2 (MarshalJSON_same_bytes_same_day (mkTime 2012 3 26 15 4 5 0 Local)
                  (dateOf 2012 3 26) ltac:(evaluate) ltac:(evaluate)
                  ltac:(evaluate) ltac:(evaluate))).
  repeat split.
Defined.

(** X6.  Outside the years 0 to 9999 the codec does not read what it wrote:
    for every [Date] of a negative year or of a year above 9999,
    [UnmarshalJSON] returns a decode error on the bytes [MarshalJSON]
    returned, and leaves the receiver as it was. *)
Theorem roundTrip_fails_outside_four_digit_years (d0 d : Date) :
  Time_wf d -> Year d < 0 \/ 9999 < Year d ->
  exists e, roundTrip d0 d = (d0, Some e) /\ decodeError e = true.
Proof.
  intros Hwf Hy. unfold roundTrip. rewrite MarshalJSON_Format. cbn [fst].
  rewrite (UnmarshalJSON_decoded d0 _ (Format d dateLayout))
    by (apply Unmarshal_jsonString, plain_Format).
  destruct (Parse_Format_outside d Hwf Hy) as (e & -> & K).
  exists e. auto.
Qed.

Lemma roundTrip_fails_before_year_0 :
  (Time_wf (dateOf (-44) 3 15) /\ (Year (dateOf (-44) 3 15) < 0 \/
                                   9999 < Year (dateOf (-44) 3 15))) /\
  exists e, roundTrip zero (dateOf (-44) 3 15) = (zero, Some e) /\ decodeError e = true.
Proof.
  split; [split; [evaluate | left; reflexivity]|].
  apply (roundTrip_fails_outside_four_digit_years zero (dateOf (-44) 3 15));
    [evaluate | left; reflexivity].
Defined.


(** [Parse] on a text of digits in the pattern: the month is checked, then
    the day against the length of the month. *)
Lemma Parse_digits (y m dd : Z) :
  0 <= y <= 9999 -> 0 <= m <= 99 -> 0 <= dd <= 99 ->
  Parse dateLayout (YYYY_MM_DD y m dd) =
  if (m <=? 0) || (12 <? m)
  then (zero, Some (ParseError dateLayout (YYYY_MM_DD y m dd) "01"
                      ("-" ++ twoDigits dd) (msgOutOfRange "month")))
  else if (dd <? 1) || (daysIn m y <? dd)
  then (zero, Some (ParseError dateLayout (YYYY_MM_DD y m dd) EmptyString EmptyString
                      (msgOutOfRange "day")))
  else (dateOf y m dd, None).
Proof.
  intros Hy Hm Hd.
  rewrite Parse_dateLayout. cbv zeta.
  unfold YYYY_MM_DD, fourDigits, twoDigits. cbn [append].
  change (len _ <? 4) with false.
  unfold isDigit at 1. cbn [String.get take drop].
  rewrite between_digit by apply mod10_range. cbn [negb orb].
  rewrite atoi_digits by apply mod10_range.
  rewrite fourDigits_value by assumption.
  rewrite skip_hyphen. cbn [negb].
  rewrite getnum_digits by apply mod10_range.
  rewrite twoDigits_value by lia.
  destruct ((m <=? 0) || (12 <? m)); [reflexivity|].
  rewrite skip_hyphen. cbn [negb].
  rewrite getnum_digits by apply mod10_range.
  rewrite twoDigits_value by lia.
  change (negb (len EmptyString =? 0)) with false. cbv iota.
  destruct ((dd <? 1) || (daysIn m y <? dd)); reflexivity.
Qed.

(** X7.  A string in the pattern YYYY-MM-DD is still checked against the
    calendar: [UnmarshalJSON] returns the parse error "month out of range"
    for a month that is not 01 to 12, else "day out of range" for a day
    that is 00 or beyond the length of the month in that year (February
    has 29 days in leap years only), and leaves the receiver alone;
    otherwise it stores the day at 00:00:00 UTC. *)
Theorem UnmarshalJSON_checks_the_calendar (d0 : Date) (y m dd : Z) :
  0 <= y <= 9999 -> 0 <= m <= 99 -> 0 <= dd <= 99 ->
  UnmarshalJSON d0 (jsonString (YYYY_MM_DD y m dd)) =
  if (m <=? 0) || (12 <? m)
  then (d0, Some (ParseError dateLayout (YYYY_MM_DD y m dd) "01"
                    ("-" ++ twoDigits dd) (msgOutOfRange "month")))
  else if (dd <? 1) || (daysIn m y <? dd)
  then (d0, Some (ParseError dateLayout (YYYY_MM_DD y m dd) EmptyString EmptyString
                    (msgOutOfRange "day")))
  else (dateOf y m dd, None).
Proof.
  intros Hy Hm Hd.
  rewrite (UnmarshalJSON_decoded d0 _ (YYYY_MM_DD y m dd))
    by (apply Unmarshal_jsonString, plain_YYYY_MM_DD).
  rewrite (Parse_digits y m dd Hy Hm Hd).
  destruct ((m <=? 0) || (12 <? m)); [reflexivity|].
  destruct ((dd <? 1) || (daysIn m y <? dd)); reflexivity.
Qed.

Lemma UnmarshalJSON_refuses_february_29_of_1900 :
  (0 <= 1900 <= 9999 /\ 0 <= 2 <= 99 /\ 0 <= 29 <= 99) /\
  UnmarshalJSON zero (jsonString "1900-02-29") =
    (zero, Some (ParseError "2006-01-02" "1900-02-29" EmptyString EmptyString
                   (msgOutOfRange "day"))).
Proof.
  split; [repeat split; evaluate|].
  apply (UnmarshalJSON_checks_the_calendar zero 1900 2 29); evaluate.
Defined.

(** The scanner after the top-level value: white space and nothing else. *)
Lemma scan_blank_top (ws : string) :
  blank ws = true ->
  scan (mkScanner StateEndTop true []) ws = Some (mkScanner StateEndTop true []).
Proof.
  induction ws as [|c ws IH]; cbn [blank allBytes scan]; [reflexivity|].
  intros H. apply andb_true_iff in H. destruct H as [Hc Hws].
  unfold scan_step. cbn [step]. unfold stateEndTop. rewrite Hc. now apply IH.
Qed.

Lemma scan_blank_after_value (ws : string) :
  blank ws = true ->
  exists s', scan (mkScanner StateEndValue false []) ws = Some s' /\ eof s' = true.
Proof.
  destruct ws as [|c ws]; cbn [blank allBytes scan].
  - intros _. eexists. split; reflexivity.
  - intros H. apply andb_true_iff in H. destruct H as [Hc Hws].
    unfold scan_step. cbn [step]. unfold stateEndValue. cbn [parseStack].
    unfold stateEndTop. rewrite Hc. rewrite (scan_blank_top ws Hws).
    eexists. split; reflexivity.
Qed.

Lemma scan_blank_before (ws rest : string) :
  blank ws = true -> scan reset (ws ++ rest) = scan reset rest.
Proof.
  induction ws as [|c ws IH]; cbn [blank allBytes append scan]; [reflexivity|].
  intros H. apply andb_true_iff in H. destruct H as [Hc Hws].
  unfold scan_step. cbn [step reset]. unfold stateBeginValue. rewrite Hc. now apply IH.
Qed.

Lemma skipSpace_blank (ws : string) (c : ascii) (rest : string) :
  blank ws = true -> isSpace c = false ->
  skipSpace (ws ++ String c rest) = String c rest.
Proof.
  intros Hws Hc. induction ws as [|x ws IH]; cbn [append skipSpace].
  - now rewrite Hc.
  - cbn [blank allBytes] in Hws. apply andb_true_iff in Hws. destruct Hws as [Hx Hws].
    rewrite Hx. now apply IH.
Qed.




(** X9.  A JSON [null] is not taken for "no date": alone or within white
    space, [UnmarshalJSON] returns on it the parse error of the empty
    string and leaves the receiver as it was. *)
Theorem UnmarshalJSON_null (d : Date) (ws1 ws2 : string) :
  blank ws1 = true -> blank ws2 = true ->
  UnmarshalJSON d (ws1 ++ "null" ++ ws2) =
  (d, Some (ParseError dateLayout EmptyString "2006" EmptyString msgNone)).
Proof.
  intros H1 H2.
  assert (Unmarshal (ws1 ++ "null" ++ ws2) EmptyString = (EmptyString, None)) as EU.
  { unfold Unmarshal. cbn [append].
    unfold checkValid. rewrite (scan_blank_before ws1 _ H1). cbn [scan].
    change (scan_step reset "n") with (Some (mkScanner StateN false [])). cbv iota beta.
    change (scan_step (mkScanner StateN false []) "u")
      with (Some (mkScanner StateNu false [])). cbv iota beta.
    change (scan_step (mkScanner StateNu false []) "l")
      with (Some (mkScanner StateNul false [])). cbv iota beta.
    change (scan_step (mkScanner StateNul false []) "l")
      with (Some (mkScanner StateEndValue false [])). cbv iota beta.
    destruct (scan_blank_after_value ws2 H2) as (s' & -> & ->). cbn [negb].
    rewrite (skipSpace_blank ws1 "n" _ H1) by reflexivity. reflexivity. }
  rewrite (UnmarshalJSON_decoded d _ EmptyString EU). reflexivity.
Qed.

Lemma UnmarshalJSON_null_example :
  (blank EmptyString = true /\ blank newline = true) /\
  UnmarshalJSON (dateOf 2012 3 26) ("null" ++ newline) =
  (dateOf 2012 3 26, Some (ParseError "2006-01-02" EmptyString "2006" EmptyString msgNone)).
Proof.
  split; [split; reflexivity|].
  apply (UnmarshalJSON_null (dateOf 2012 3 26) EmptyString newline); reflexivity.
Defined.

End DateCodecMore.

(** ** The listing functions: the lines and the bytes written *)

Module ListingMore.
Import StringFacts Spec util Listing.

Lemma countByte_append (c : ascii) (a b : string) :
  countByte c (a ++ b) = (countByte c a + countByte c b)%nat.
Proof.
  induction a as [|x a IH]; cbn [append countByte]; [reflexivity|].
  destruct (x =? c)%char; rewrite IH; reflexivity.
Qed.

Lemma last_append_newline (a : string) : last (a ++ newline) = Some lineFeed.
Proof. unfold newline. apply last_snoc. Qed.

Section Lines.

Context {ID : Type} (fmtVerb : ascii -> operand (ID:=ID) -> string).

(** A line of either format is one line when its parts have no line
    feed. *)
Lemma oneLine_formatted (label : string) (i : ID) (name : string) :
  noLineFeed label = true -> quiet fmtVerb i name = true ->
  oneLine (formatted fmtVerb label i name) /\ oneLine (withColon fmtVerb label i name).
Proof.
  unfold quiet, noLineFeed. intros Hl Hq.
  apply andb_true_iff in Hq. destruct Hq as [Hs Hq].
  apply Nat.eqb_eq in Hl, Hs, Hq.
  unfold oneLine, formatted, withColon. rewrite <- !append_assoc.
  rewrite !last_append_newline, !countByte_append, Hl, Hs, Hq.
  repeat split.
Qed.

Lemma stream_lines {T : Type} (line : T -> string) (xs : list T) :
  Forall (fun x => oneLine (line x)) xs ->
  Forall oneLine (map line xs) /\
  countByte lineFeed (stream (map line xs)) = List.length xs.
Proof.
  induction 1 as [|x xs Hx _ [IH1 IH2]]; cbn [map stream List.length].
  - split; [constructor | reflexivity].
  - split; [constructor; assumption|].
    destruct Hx as [_ Hx].
    rewrite countByte_append, Hx, IH2. reflexivity.
Qed.

End Lines.

Section More.

Context {Client NextPage ID : Type} (fmtVerb : ascii -> operand (ID:=ID) -> string).
Context {S : Type} (srv : service (Client:=Client) (NextPage:=NextPage) (ID:=ID) S).

Lemma wholeLines_map {T : Type} (line : T -> string) (i : T -> ID) (name : T -> string)
    (xs : list T) :
  (forall x, quiet fmtVerb (i x) (name x) = true -> oneLine (line x)) ->
  forallb (fun x => quiet fmtVerb (i x) (name x)) xs = true ->
  wholeLines (map line xs) (List.length xs).
Proof.
  intros Hline Hq. apply stream_lines.
  rewrite forallb_forall in Hq. apply Forall_forall. intros x Hx.
  apply Hline, Hq, Hx.
Qed.

(** X10.  When their list call returns no error, [ListProjects],
    [ListTasks] and [ListSections] print one line per object, in the order
    of the answer, and return no error: [ListProjects] the lines with the
    colon, the two others the lines [<TypeLabel> <ID> <Quoted Name>]. *)
Theorem listing_prints_each_object
    (client : Client) (w : Workspace) (p : Project) (st : S) :
  (failure srv (Projects w client) st = None ->
   printed srv (ListProjects fmtVerb client w) st =
     map (fun x => withColon fmtVerb "Project" (Project_ID x) (Project_Name x))
         (objects srv (Projects w client) st) /\
   List.length (printed srv (ListProjects fmtVerb client w) st) =
     List.length (objects srv (Projects w client) st) /\
   result srv (ListProjects fmtVerb client w) st = None) /\
  (failure srv (Tasks p client) st = None ->
   printed srv (ListTasks fmtVerb client p) st =
     map (fun x => formatted fmtVerb "Task" (Task_ID x) (Task_Name x))
         (objects srv (Tasks p client) st) /\
   List.length (printed srv (ListTasks fmtVerb client p) st) =
     List.length (objects srv (Tasks p client) st) /\
   result srv (ListTasks fmtVerb client p) st = None) /\
  (failure srv (Sections p client) st = None ->
   printed srv (ListSections fmtVerb client p) st =
     map (fun x => formatted fmtVerb "Section" (Section_ID x) (Section_Name x))
         (objects srv (Sections p client) st) /\
   List.length (printed srv (ListSections fmtVerb client p) st) =
     List.length (objects srv (Sections p client) st) /\
   result srv (ListSections fmtVerb client p) st = None).
Proof.
  destruct (printed_ListProjects fmtVerb srv client w st) as [Hp2 Hr2].
  destruct (printed_ListTasks fmtVerb srv client p st) as [Hp3 Hr3].
  destruct (printed_ListSections fmtVerb srv client p st) as [Hp4 Hr4].
  repeat split; try congruence.
  - rewrite Hp2, H. reflexivity.
  - rewrite Hp2, H. apply length_map.
  - rewrite Hp3, H. reflexivity.
  - rewrite Hp3, H. apply length_map.
  - rewrite Hp4, H. reflexivity.
  - rewrite Hp4, H. apply length_map.
Qed.

(** X11.  A listing function returns an error exactly when its list call
    did, and that error; and it prints no line exactly when the call
    failed or returned no object. *)
Theorem listing_silent_iff
    (client : Client) (w : Workspace) (p : Project) (st : S) :
  (result srv (ListWorkspaces fmtVerb client) st = failure srv (Workspaces client) st /\
   (printed srv (ListWorkspaces fmtVerb client) st = [] <->
    failure srv (Workspaces client) st <> None \/
    objects srv (Workspaces client) st = [])) /\
  (result srv (ListProjects fmtVerb client w) st = failure srv (Projects w client) st /\
   (printed srv (ListProjects fmtVerb client w) st = [] <->
    failure srv (Projects w client) st <> None \/
    objects srv (Projects w client) st = [])) /\
  (result srv (ListTasks fmtVerb client p) st = failure srv (Tasks p client) st /\
   (printed srv (ListTasks fmtVerb client p) st = [] <->
    failure srv (Tasks p client) st <> None \/
    objects srv (Tasks p client) st = [])) /\
  (result srv (ListSections fmtVerb client p) st = failure srv (Sections p client) st /\
   (printed srv (ListSections fmtVerb client p) st = [] <->
    failure srv (Sections p client) st <> None \/
    objects srv (Sections p client) st = [])).
Proof.
  assert (G : forall (T : Type) (line : T -> string) (xs : list T) (f : option error)
                     (out : list string),
             out = match f with Some _ => [] | None => map line xs end ->
             (out = [] <-> f <> None \/ xs = [])).
  { intros T line xs f out ->. destruct f as [e|].
    - split; [left; discriminate | reflexivity].
    - split.
      + intros H. right. destruct xs; [reflexivity | discriminate H].
      + intros [H | ->]; [now contradiction H | reflexivity]. }
  destruct (printed_ListWorkspaces fmtVerb srv client st) as [Hp1 Hr1].
  destruct (printed_ListProjects fmtVerb srv client w st) as [Hp2 Hr2].
  destruct (printed_ListTasks fmtVerb srv client p st) as [Hp3 Hr3].
  destruct (printed_ListSections fmtVerb srv client p st) as [Hp4 Hr4].
  repeat apply conj; try assumption; eapply G; eassumption.
Qed.

(** X12.  The bytes a listing function writes are whole lines, one per
    object: when the call returns no error and neither the identifier
    under [%s] nor the name under [%q] of any object is printed with a line
    feed in it, every write ends with a line feed and has no other, and the
    output has as many line feeds as the answer has objects. *)
Theorem listing_writes_whole_lines
    (client : Client) (w : Workspace) (p : Project) (st : S) :
  (failure srv (Workspaces client) st = None ->
   forallb (fun x => quiet fmtVerb (Workspace_ID x) (Workspace_Name x))
           (objects srv (Workspaces client) st) = true ->
   wholeLines (printed srv (ListWorkspaces fmtVerb client) st)
              (List.length (objects srv (Workspaces client) st))) /\
  (failure srv (Projects w client) st = None ->
   forallb (fun x => quiet fmtVerb (Project_ID x) (Project_Name x))
           (objects srv (Projects w client) st) = true ->
   wholeLines (printed srv (ListProjects fmtVerb client w) st)
              (List.length (objects srv (Projects w client) st))) /\
  (failure srv (Tasks p client) st = None ->
   forallb (fun x => quiet fmtVerb (Task_ID x) (Task_Name x))
           (objects srv (Tasks p client) st) = true ->
   wholeLines (printed srv (ListTasks fmtVerb client p) st)
              (List.length (objects srv (Tasks p client) st))) /\
  (failure srv (Sections p client) st = None ->
   forallb (fun x => quiet fmtVerb (Section_ID x) (Section_Name x))
           (objects srv (Sections p client) st) = true ->
   wholeLines (printed srv (ListSections fmtVerb client p) st)
              (List.length (objects srv (Sections p client) st))).
Proof.
  destruct (printed_ListWorkspaces fmtVerb srv client st) as [Hp1 _].
  destruct (printed_ListProjects fmtVerb srv client w st) as [Hp2 _].
  destruct (printed_ListTasks fmtVerb srv client p st) as [Hp3 _].
  destruct (printed_ListSections fmtVerb srv client p st) as [Hp4 _].
  repeat apply conj; intros Hok Hq.
  - rewrite Hp1, Hok. revert Hq. apply wholeLines_map. intros x Hx. unfold workspaceLine.
    destruct (IsOrganization x); apply oneLine_formatted; auto.
  - rewrite Hp2, Hok. revert Hq. apply wholeLines_map. intros x Hx.
    apply oneLine_formatted; auto.
  - rewrite Hp3, Hok. revert Hq. apply wholeLines_map. intros x Hx.
    apply oneLine_formatted; auto.
  - rewrite Hp4, Hok. revert Hq. apply wholeLines_map. intros x Hx.
    apply oneLine_formatted; auto.
Qed.

End More.

Lemma listing_prints_each_object_demo :
  failure demoService (Projects acme tt) 0%nat = None /\
  printed demoService (ListProjects plainVerb tt acme) 0%nat =
    [withColon plainVerb "Project" "7" "Launch"] /\
  List.length (printed demoService (ListProjects plainVerb tt acme) 0%nat) = 1%nat /\
  result demoService (ListProjects plainVerb tt acme) 0%nat = None.
Proof.
  split; [reflexivity|].
  apply (proj1 (listing_prints_each_object plainVerb demoService tt acme launch 0%nat)).
  reflexivity.
Defined.

Lemma listing_writes_whole_lines_demo :
  (failure demoService (Workspaces tt) 0%nat = None /\
   forallb (fun x => quiet plainVerb (Workspace_ID x) (Workspace_Name x))
           (objects demoService (Workspaces tt) 0%nat) = true) /\
  wholeLines (printed demoService (ListWorkspaces plainVerb tt) 0%nat) 2.
Proof.
  split; [split; reflexivity|].
  apply (proj1 (listing_writes_whole_lines plainVerb demoService tt acme launch 0%nat));
    reflexivity.
Defined.

End ListingMore.
